(** * The reminder scheduling and response service (NotificationService)

    A shallow embedding of the class [NotificationService] of the
    Medipoint application: the operations that schedule, cancel and delete
    medication reminders and the listener that routes the user's answer to
    a delivered notification.

    The service is asynchronous JavaScript over two platform libraries
    (the notification scheduler and the key-value store).  Each operation
    is embedded as a function in a state-and-exception monad over a
    [World]: the two stored collections, the chronological list of the
    platform calls issued so far, the console and the fields of the
    singleton.  What the platform answers is given by a [Platform]
    environment: which calls it rejects, and what it resolves with.

    Numbers are JavaScript doubles in the source; the integers that occur
    here (weekday indices, adherence scores, seconds) are far inside the
    range where double arithmetic is exact, and are embedded as [Z].
    Notification titles are given without the pictograph that starts them
    in the source. *)

From Stdlib Require Import ZArith String Ascii List Bool Lia FinFun.
From Stdlib Require Import DecimalString Sorted Permutation.
Import ListNotations.

Local Open Scope string_scope.
Local Open Scope Z_scope.
Local Open Scope list_scope.

(** ** JavaScript values *)

(** A value of type [A | null] that may also be [undefined] at run time. *)
Inductive Nullable (A : Type) : Type :=
| JNull
| JUndefined
| JValue (a : A).
Arguments JNull {A}.
Arguments JUndefined {A}.
Arguments JValue {A} a.

(** The result of [Number(s)].  Strings of at most fifteen decimal digits
    convert to the integer they denote (the empty string to 0); for every
    other string the conversion is kept symbolic. *)
Inductive JsNumber : Type :=
| Num (z : Z)
| NumberOf (s : string).

(** Truthiness of a string: every string but the empty one. *)
Definition truthy (s : string) : bool := negb (s =? "")%string.

(** Truthiness of an optional string field ([undefined] is falsy). *)
Definition is_set (o : option string) : bool :=
  match o with
  | Some s => truthy s
  | None => false
  end.

(** [s.split(sep)] for a one-character separator. *)
Fixpoint split (sep : ascii) (s : string) : list string :=
  match s with
  | EmptyString => [EmptyString]
  | String c rest =>
      if Ascii.eqb c sep then EmptyString :: split sep rest
      else match split sep rest with
           | piece :: pieces => String c piece :: pieces
           | [] => [String c EmptyString]
           end
  end.

Definition digit_value (c : ascii) : option Z :=
  let n := Z.of_nat (nat_of_ascii c) in
  if (48 <=? n) && (n <=? 57) then Some (n - 48) else None.

Fixpoint decimal (s : string) (acc : Z) : option Z :=
  match s with
  | EmptyString => Some acc
  | String c rest =>
      match digit_value c with
      | Some d => decimal rest (10 * acc + d)
      | None => None
      end
  end.

Definition Number (s : string) : JsNumber :=
  if (String.length s <=? 15)%nat
  then match decimal s 0 with
       | Some z => Num z
       | None => NumberOf s
       end
  else NumberOf s.

(** ** Data model *)

(** [interface MedicationReminder]. *)
Record MedicationReminder : Type := mkReminder {
  id : string;
  medicationId : string;
  medicationName : string;
  dosage : string;
  scheduledTime : string;
  days : list Z;
  enabled : bool;
  notificationId : option string
}.

(** [{ ...reminder, notificationId: h }]; a field set to [undefined] is
    dropped by [JSON.stringify], which is the [None] of the stored form. *)
Definition with_notificationId (r : MedicationReminder) (h : option string)
  : MedicationReminder :=
  mkReminder (id r) (medicationId r) (medicationName r) (dosage r)
             (scheduledTime r) (days r) (enabled r) h.

(** The records of the [medications] collection ([interface Medication] of
    the medicine tab, which owns the collection). *)
Record Medication : Type := mkMedication {
  med_id : string;
  med_name : string;
  med_dosage : string;
  frequency : string;
  times : list string;
  lastTaken : option string;
  adherence : Z;
  reminderEnabled : bool;
  color : string
}.

(** [{ ...med, lastTaken: t, adherence: a }]. *)
Definition with_taken (med : Medication) (t : string) (a : Z) : Medication :=
  mkMedication (med_id med) (med_name med) (med_dosage med) (frequency med)
               (times med) (Some t) a (reminderEnabled med) (color med).

(** The [data] object of a notification. *)
Record NotificationData : Type := mkData {
  data_medicationId : option string;
  data_reminderTime : option string;
  data_type : option string
}.

Inductive Priority : Type := HIGH.

Record NotificationContent : Type := mkContent {
  title : string;
  body : string;
  data : NotificationData;
  sound : bool;
  priority : option Priority;
  categoryIdentifier : option string
}.

(** [WeeklyTriggerInput] and [TimeIntervalTriggerInput].  The hour and the
    minute are the first two components of the destructured array, absent
    ([undefined]) when the array is shorter. *)
Inductive Trigger : Type :=
| WeeklyTrigger (weekday : Z) (hour minute : option JsNumber) (repeats : bool)
| TimeIntervalTrigger (seconds : Z) (repeats : bool).

(** The argument of [scheduleNotificationAsync]; [trigger: null] delivers
    the notification at once. *)
Record NotificationRequest : Type := mkRequest {
  content : NotificationContent;
  trigger : option Trigger
}.

(** What [AsyncStorage.getItem] yields for a key, with the outcome of
    [JSON.parse] on it: nothing ([null], or the empty string, falsy alike),
    a text that is not JSON, or the text of a collection. *)
Inductive Cell (A : Type) : Type :=
| Absent
| Corrupt
| Json (a : A).
Arguments Absent {A}.
Arguments Corrupt {A}.
Arguments Json {A} a.

(** The values the service writes: [JSON.stringify] of a collection. *)
Inductive Stored : Type :=
| MedicationsJson (l : list Medication)
| RemindersJson (l : list MedicationReminder).

Definition key_of (v : Stored) : string :=
  match v with
  | MedicationsJson _ => "medications"
  | RemindersJson _ => "medication_reminders"
  end.

(** ** The platform *)

(** The calls the service makes to its platform libraries. *)
Inductive Call : Type :=
| GetItem (key : string)
| SetItem (key : string) (value : Stored)
| ScheduleNotification (request : NotificationRequest)
| CancelScheduledNotification (handle : string)
| CancelAllScheduledNotifications
| SetNotificationHandler
| WebRequestPermission
| GetPermissions
| RequestPermissions
| GetExpoPushToken
| AddNotificationResponseReceivedListener.

Inductive Error : Type :=
| Rejected (c : Call)
| SyntaxError.

Inductive LogLine : Type :=
| console_log (message : string) (argument : option string)
| console_warn (message : string)
| console_error (message : string) (e : Error).

(** The environment of a run.  Calls are numbered in the order they are
    issued, from 0. *)
Record Platform : Type := mkPlatform {
  rejects : nat -> Call -> bool;   (* the n-th call, being [c], fails *)
  reply : nat -> string;           (* what the n-th call resolves with:
                                      a handle, a status or a token *)
  now : string;                    (* [new Date().toISOString()] *)
  OS : string;                     (* [Platform.OS] *)
  window_Notification : bool;      (* ['Notification' in window] *)
  isDevice : bool                  (* [Device.isDevice] *)
}.

Record World : Type := mkWorld {
  medications : Cell (list Medication);
  medication_reminders : Cell (list MedicationReminder);
  calls : list Call;
  console : list LogLine;
  isInitialized : bool;
  expoPushToken : option string
}.

(** ** The monad of the service's operations *)

Inductive Outcome (A : Type) : Type :=
| Returned (a : A)
| Thrown (e : Error).
Arguments Returned {A} a.
Arguments Thrown {A} e.

Definition M (A : Type) : Type := World -> Outcome A * World.

Definition ret {A} (a : A) : M A := fun w => (Returned a, w).

Definition bind {A B} (m : M A) (k : A -> M B) : M B :=
  fun w =>
    match m w with
    | (Returned a, w') => k a w'
    | (Thrown e, w') => (Thrown e, w')
    end.

Definition throw {A} (e : Error) : M A := fun w => (Thrown e, w).

(** [try { body } catch (error) { handler }]. *)
Definition try_catch {A} (body : M A) (handler : Error -> M A) : M A :=
  fun w =>
    match body w with
    | (Returned a, w') => (Returned a, w')
    | (Thrown e, w') => handler e w'
    end.

Declare Scope js_scope.
Delimit Scope js_scope with js.
Notation "x <- m ;; k" := (bind m (fun x => k))
  (at level 100, m at next level, right associativity) : js_scope.
Notation "m ;; k" := (bind m (fun _ => k))
  (at level 100, right associativity) : js_scope.
Local Open Scope js_scope.

Definition log (l : LogLine) : M unit :=
  fun w => (Returned tt,
            mkWorld (medications w) (medication_reminders w) (calls w)
                    (console w ++ [l]) (isInitialized w) (expoPushToken w)).

Definition issue (c : Call) (w : World) : World :=
  mkWorld (medications w) (medication_reminders w) (calls w ++ [c])
          (console w) (isInitialized w) (expoPushToken w).

Definition store (v : Stored) (w : World) : World :=
  match v with
  | MedicationsJson l =>
      mkWorld (Json l) (medication_reminders w) (calls w)
              (console w) (isInitialized w) (expoPushToken w)
  | RemindersJson l =>
      mkWorld (medications w) (Json l) (calls w)
              (console w) (isInitialized w) (expoPushToken w)
  end.

(** ** The service *)

Section Service.

Variable env : Platform.

(** A call to a platform library: it is recorded, then rejected or
    resolved as the environment says. *)
Definition invoke (c : Call) : M string :=
  fun w =>
    let n := length (calls w) in
    if rejects env n c
    then (Thrown (Rejected c), issue c w)
    else (Returned (reply env n), issue c w).

(** [AsyncStorage.getItem('medications')]. *)
Definition getItem_medications : M (Cell (list Medication)) :=
  _ <- invoke (GetItem "medications") ;;
  fun w => (Returned (medications w), w).

(** [AsyncStorage.getItem('medication_reminders')]. *)
Definition getItem_medication_reminders : M (Cell (list MedicationReminder)) :=
  _ <- invoke (GetItem "medication_reminders") ;;
  fun w => (Returned (medication_reminders w), w).

(** [AsyncStorage.setItem(key, JSON.stringify(collection))]. *)
Definition setItem (v : Stored) : M unit :=
  _ <- invoke (SetItem (key_of v) v) ;;
  fun w => (Returned tt, store v w).

(** [JSON.parse] of a text read from the store (never called on nothing:
    every caller tests the text first). *)
Definition JSON_parse {A} (text : Cell (list A)) : M (list A) :=
  match text with
  | Json l => ret l
  | Corrupt => throw SyntaxError
  | Absent => ret []
  end.

Definition scheduleNotificationAsync (request : NotificationRequest) : M string :=
  invoke (ScheduleNotification request).

(** *** Cancelling *)

Definition cancelReminder (handle : string) : M unit :=
  try_catch
    (_ <- invoke (CancelScheduledNotification handle) ;; ret tt)
    (fun error => log (console_error "Failed to cancel reminder:" error)).


(** *** The persisted reminders *)

Definition getReminders : M (list MedicationReminder) :=
  try_catch
    (remindersData <- getItem_medication_reminders ;;
     match remindersData with
     | Absent => ret []
     | text => JSON_parse text
     end)
    (fun error =>
       log (console_error "Failed to get reminders:" error) ;; ret []).

Definition saveReminder (reminder : MedicationReminder) : M unit :=
  try_catch
    (existingReminders <- getReminders ;;
     let updatedReminders :=
       (filter (fun r => negb (id r =? id reminder)%string) existingReminders
          ++ [reminder]) in
     setItem (RemindersJson updatedReminders))
    (fun error => log (console_error "Failed to save reminder:" error)).

Definition deleteReminder (reminderId : string) : M unit :=
  try_catch
    (reminders <- getReminders ;;
     let reminder := find (fun r => (id r =? reminderId)%string) reminders in
     match reminder with
     | Some r =>
         match notificationId r with
         | Some handle => if truthy handle then cancelReminder handle else ret tt
         | None => ret tt
         end
     | None => ret tt
     end ;;
     let updatedReminders :=
       filter (fun r => negb (id r =? reminderId)%string) reminders in
     setItem (RemindersJson updatedReminders))
    (fun error => log (console_error "Failed to delete reminder:" error)).

(** *** Scheduling *)

(** The registrar's weekday of a day of the week. *)
Definition registrar_weekday (dayOfWeek : Z) : Z :=
  if dayOfWeek =? 0 then 1 else dayOfWeek + 1.

Definition weekly_request (reminder : MedicationReminder)
    (hours minutes : option JsNumber) (dayOfWeek : Z) : NotificationRequest :=
  mkRequest
    (mkContent
       "Medicine Reminder"
       ("Time to take " ++ medicationName reminder
          ++ " (" ++ dosage reminder ++ ")")%string
       (mkData (Some (medicationId reminder))
               (Some (scheduledTime reminder))
               (Some "medicine_reminder"))
       true (Some HIGH) (Some "medicine_reminder"))
    (Some (WeeklyTrigger (registrar_weekday dayOfWeek) hours minutes true)).

(** The loop [for (const dayOfWeek of reminder.days)], from the identifiers
    collected so far. *)
Fixpoint schedule_days (reminder : MedicationReminder)
    (hours minutes : option JsNumber) (ds : list Z)
    (notificationIds : list string) : M (list string) :=
  match ds with
  | [] => ret notificationIds
  | dayOfWeek :: rest =>
      notificationId <-
        scheduleNotificationAsync
          (weekly_request reminder hours minutes dayOfWeek) ;;
      schedule_days reminder hours minutes rest
                    (notificationIds ++ [notificationId])
  end.

Definition scheduleReminder (reminder : MedicationReminder)
  : M (Nullable string) :=
  try_catch
    (if negb (enabled reminder) then ret JNull
     else
       (if is_set (notificationId reminder)
        then match notificationId reminder with
             | Some handle => cancelReminder handle
             | None => ret tt
             end
        else ret tt) ;;
       let parts := map Number (split ":" (scheduledTime reminder)) in
       let hours := nth_error parts 0 in
       let minutes := nth_error parts 1 in
       notificationIds <-
         schedule_days reminder hours minutes (days reminder) [] ;;
       let primaryNotificationId := nth_error notificationIds 0 in
       saveReminder (with_notificationId reminder primaryNotificationId) ;;
       ret (match primaryNotificationId with
            | Some handle => JValue handle
            | None => JUndefined
            end))
    (fun error =>
       log (console_error "Failed to schedule reminder:" error) ;;
       ret JNull).

(** *** Immediate notifications *)

Definition showLocalNotification (title body : string)
    (data : NotificationData) : M string :=
  try_catch
    (scheduleNotificationAsync
       (mkRequest (mkContent title body data true None None) None))
    (fun error =>
       log (console_error "Failed to show local notification:" error) ;;
       throw error).

Definition testNotification : M unit :=
  try_catch
    (_ <- showLocalNotification
            "Test Notification"
            "This is a test notification to verify the service is working correctly."
            (mkData None None (Some "test")) ;;
     ret tt)
    (fun error =>
       log (console_error "Failed to send test notification:" error) ;;
       throw error).

(** *** Answers to a delivered notification *)

Definition mark_taken (medicationId : string) (med : Medication) : Medication :=
  if (med_id med =? medicationId)%string
  then with_taken med (now env) (Z.min 100 (adherence med + 2))
  else med.

Definition display_name (medicationId : string) (medications : list Medication)
  : string :=
  match find (fun m => (med_id m =? medicationId)%string) medications with
  | Some m => if truthy (med_name m) then med_name m else "Medication"
  | None => "Medication"
  end.

Definition handleMedicationTaken (medicationId reminderTime : string) : M unit :=
  try_catch
    (medicationsData <- getItem_medications ;;
     match medicationsData with
     | Absent => ret tt
     | text =>
         medications <- JSON_parse text ;;
         let updatedMedications := map (mark_taken medicationId) medications in
         setItem (MedicationsJson updatedMedications) ;;
         showLocalNotification
           "Dose Recorded"
           (display_name medicationId medications ++ " marked as taken")%string
           (mkData None None (Some "confirmation")) ;;
         log (console_log "Medication marked as taken:" (Some medicationId))
     end)
    (fun error =>
       log (console_error "Error handling medication taken:" error)).

Definition snoozeMinutes : Z := 15.

Definition snooze_request (medicationId reminderTime medicationName : string)
  : NotificationRequest :=
  mkRequest
    (mkContent
       "Snoozed Reminder"
       ("Don't forget to take " ++ medicationName)%string
       (mkData (Some medicationId) (Some reminderTime)
               (Some "snoozed_reminder"))
       true (Some HIGH) (Some "medicine_reminder"))
    (Some (TimeIntervalTrigger (snoozeMinutes * 60) false)).

Definition handleSnoozeReminder (medicationId reminderTime : string) : M unit :=
  try_catch
    (medicationsData <- getItem_medications ;;
     medicationName <-
       match medicationsData with
       | Absent => ret "Your medication"
       | text =>
           medications <- JSON_parse text ;;
           match find (fun med => (med_id med =? medicationId)%string)
                      medications with
           | Some medication =>
               ret (med_name medication ++ " ("
                      ++ med_dosage medication ++ ")")%string
           | None => ret "Your medication"
           end
       end ;;
     scheduleNotificationAsync
       (snooze_request medicationId reminderTime medicationName) ;;
     showLocalNotification
       "Reminder Snoozed"
       "We'll remind you again in 15 minutes"
       (mkData None None (Some "confirmation")) ;;
     log (console_log "Reminder snoozed for:" (Some medicationId)))
    (fun error =>
       log (console_error "Error handling snooze reminder:" error)).

(** What the platform hands to the response listener:
    [actionIdentifier] and [notification.request.content.data]. *)
Record Response : Type := mkResponse {
  actionIdentifier : string;
  response_data : option NotificationData
}.

(** [notification.request.content.data || {}]. *)
Definition payload_of (response : Response) : NotificationData :=
  match response_data response with
  | Some d => d
  | None => mkData None None None
  end.

(** The callback given to [addNotificationResponseReceivedListener]. *)
Definition on_response (response : Response) : M unit :=
  let payload := payload_of response in
  match data_medicationId payload, data_reminderTime payload with
  | Some medicationId, Some reminderTime =>
      if negb (truthy medicationId) || negb (truthy reminderTime) then ret tt
      else
        try_catch
          (if (actionIdentifier response =? "taken")%string
           then handleMedicationTaken medicationId reminderTime
           else if (actionIdentifier response =? "snooze")%string
           then handleSnoozeReminder medicationId reminderTime
           else log (console_log "Notification tapped, opening app" None))
          (fun error =>
             log (console_error "Error handling notification response:" error))
  | _, _ => ret tt
  end.

(** *** Initialisation *)

Definition requestPermissions : M bool :=
  if (OS env =? "web")%string
  then
    if window_Notification env
    then permission <- invoke WebRequestPermission ;;
         ret (permission =? "granted")%string
    else ret false
  else
    existingStatus <- invoke GetPermissions ;;
    finalStatus <-
      (if negb (existingStatus =? "granted")%string
       then invoke RequestPermissions
       else ret existingStatus) ;;
    if negb (finalStatus =? "granted")%string
    then log (console_warn "Push notification permissions not granted") ;;
         ret false
    else ret true.

Definition registerForPushNotificationsAsync : M (option string) :=
  try_catch
    (if negb (isDevice env)
     then log (console_warn "Must use physical device for Push Notifications") ;;
          ret None
     else
       token <- invoke GetExpoPushToken ;;
       log (console_log "Expo push token:" (Some token)) ;;
       ret (Some token))
    (fun error =>
       log (console_error "Failed to get push token:" error) ;; ret None).

Definition setupNotificationResponseListener : M unit :=
  _ <- invoke AddNotificationResponseReceivedListener ;; ret tt.

Definition set_expoPushToken (token : option string) : M unit :=
  fun w => (Returned tt,
            mkWorld (medications w) (medication_reminders w) (calls w)
                    (console w) (isInitialized w) token).

Definition set_isInitialized (b : bool) : M unit :=
  fun w => (Returned tt,
            mkWorld (medications w) (medication_reminders w) (calls w)
                    (console w) b (expoPushToken w)).

Definition initialize : M unit :=
  fun w =>
    if isInitialized w then (Returned tt, w)
    else
      try_catch
        (invoke SetNotificationHandler ;;
         requestPermissions ;;
         (if isDevice env
          then token <- registerForPushNotificationsAsync ;;
               set_expoPushToken token
          else ret tt) ;;
         setupNotificationResponseListener ;;
         set_isInitialized true ;;
         log (console_log "NotificationService initialized successfully" None))
        (fun error =>
           log (console_error "Failed to initialize NotificationService:" error) ;;
           throw error)
        w.

End Service.

Arguments payload_of response : simpl never.

(** ** Reading the trace *)

(** The calls issued between two worlds of one run. *)
Definition calls_since (w w' : World) : list Call :=
  skipn (length (calls w)) (calls w').

(** The triggers handed to the scheduler for registration (a request with
    [trigger: null] is an immediate notification, not a registration). *)
Fixpoint registered (cs : list Call) : list Trigger :=
  match cs with
  | [] => []
  | ScheduleNotification (mkRequest _ (Some t)) :: rest => t :: registered rest
  | _ :: rest => registered rest
  end.

(** The payloads of the registrations, in the same order. *)
Fixpoint registered_data (cs : list Call) : list NotificationData :=
  match cs with
  | [] => []
  | ScheduleNotification (mkRequest c (Some _)) :: rest =>
      data c :: registered_data rest
  | _ :: rest => registered_data rest
  end.

(** The notifications sent for immediate delivery. *)
Fixpoint immediate (cs : list Call) : list NotificationContent :=
  match cs with
  | [] => []
  | ScheduleNotification (mkRequest c None) :: rest => c :: immediate rest
  | _ :: rest => immediate rest
  end.

(** The handles for which a cancellation was issued. *)
Fixpoint cancels (cs : list Call) : list string :=
  match cs with
  | [] => []
  | CancelScheduledNotification h :: rest => h :: cancels rest
  | _ :: rest => cancels rest
  end.

(** The values handed to the store for writing. *)
Fixpoint writes (cs : list Call) : list Stored :=
  match cs with
  | [] => []
  | SetItem _ v :: rest => v :: writes rest
  | _ :: rest => writes rest
  end.

(** Calls to the trigger registrar: register, cancel, cancel-all. *)
Definition is_registrar_call (c : Call) : bool :=
  match c with
  | ScheduleNotification _
  | CancelScheduledNotification _
  | CancelAllScheduledNotifications => true
  | _ => false
  end.

(** ** Assumptions on the platform *)

(** The key-value store answers every read and write. *)
Definition storage_ok (env : Platform) : Prop :=
  forall n c,
    match c with
    | GetItem _ | SetItem _ _ => rejects env n c = false
    | _ => True
    end.

(** The scheduler accepts every notification request. *)
Definition scheduler_ok (env : Platform) : Prop :=
  forall n request, rejects env n (ScheduleNotification request) = false.

(** A platform that rejects nothing, with fixed answers. *)
Definition steady (answer : string) : Platform :=
  mkPlatform (fun _ _ => false) (fun _ => answer)
             "2024-01-01T09:00:00.000Z" "ios" false true.

(** A platform that rejects every call. *)
Definition failing : Platform :=
  mkPlatform (fun _ _ => true) (fun _ => "")
             "2024-01-01T09:00:00.000Z" "ios" false true.

(** A fresh installation: nothing stored, nothing issued. *)
Definition empty_world : World :=
  mkWorld Absent Absent [] [] false None.

(** ** Vocabulary of the statements *)

(** What an acknowledgement does to one record: the time of the last dose
    becomes the current time, the adherence grows by 2 up to 100, the
    other fields stay. *)
Definition dose_recorded (env : Platform) (m m' : Medication) : Prop :=
  lastTaken m' = Some (now env) /\
  adherence m' = Z.min 100 (adherence m + 2) /\
  adherence m' <= 100 /\
  (adherence m = 99 -> adherence m' = 100) /\
  med_id m' = med_id m /\ med_name m' = med_name m /\
  med_dosage m' = med_dosage m /\ frequency m' = frequency m /\
  times m' = times m /\ reminderEnabled m' = reminderEnabled m /\
  color m' = color m.

(** Two worlds with the same stored collections. *)
Definition same_stores (w w' : World) : Prop :=
  medications w' = medications w /\
  medication_reminders w' = medication_reminders w.

(** The list [getReminders] hands to its caller: the stored collection
    when the read succeeds on a readable text, the empty list otherwise. *)
Definition listed (env : Platform) (w : World) : list MedicationReminder :=
  if rejects env (length (calls w)) (GetItem "medication_reminders") then []
  else match medication_reminders w with
       | Json l => l
       | _ => []
       end.

(** The registration calls of the loop over the days. *)
Definition weekly_calls (r : MedicationReminder) (h m : option JsNumber)
    (ds : list Z) : list Call :=
  map (fun d => ScheduleNotification (weekly_request r h m d)) ds.

(** The cancellation [scheduleReminder] starts with. *)
Definition prior_cancel (r : MedicationReminder) : list Call :=
  match notificationId r with
  | Some h => if truthy h then [CancelScheduledNotification h] else []
  | None => []
  end.

(** [const [hours, minutes] = scheduledTime.split(':').map(Number)]. *)
Definition parsed_hours (r : MedicationReminder) : option JsNumber :=
  nth_error (map Number (split ":" (scheduledTime r))) 0.

(** The second component of the same array. *)
Definition parsed_minutes (r : MedicationReminder) : option JsNumber :=
  nth_error (map Number (split ":" (scheduledTime r))) 1.

(** How a run of [scheduleReminder] on an enabled reminder ends: either the
    loop was stopped by a rejected registration, and the answer is [null]
    with the stores untouched; or every day was registered, the reminder
    was saved with the first identifier and that identifier is the answer
    ([undefined] when there is none). *)
Inductive schedule_end (env : Platform) (r : MedicationReminder) (w : World)
    (k : nat) (tail : list Call) (o : Outcome (Nullable string)) (w' : World)
  : Prop :=
| loop_stopped :
    (exists e w1,
        fst (schedule_days env r (parsed_hours r) (parsed_minutes r)
               (days r) [] w1) = Thrown e) ->
    o = Returned JNull -> tail = [] ->
    medication_reminders w' = medication_reminders w ->
    schedule_end env r w k tail o w'
| loop_completed (ids : list string) (existing : list MedicationReminder) :
    firstn k (days r) = days r ->
    length ids = length (days r) ->
    existing = [] \/ medication_reminders w = Json existing ->
    o = Returned (match nth_error ids 0 with
                  | Some h => JValue h
                  | None => JUndefined
                  end) ->
    tail = [GetItem "medication_reminders";
            SetItem "medication_reminders"
              (RemindersJson
                 (filter (fun x => negb (id x =? id r)%string) existing
                    ++ [with_notificationId r (nth_error ids 0)]))] ->
    medication_reminders w'
      = Json (filter (fun x => negb (id x =? id r)%string) existing
                ++ [with_notificationId r (nth_error ids 0)]) \/
    medication_reminders w' = medication_reminders w ->
    schedule_end env r w k tail o w'.

(** The first step of [scheduleReminder] on an enabled reminder: the
    cancellation of the handle the reminder carries, if any. *)
Definition cancel_prior (env : Platform) (r : MedicationReminder) : M unit :=
  if is_set (notificationId r)
  then match notificationId r with
       | Some handle => cancelReminder env handle
       | None => ret tt
       end
  else ret tt.

(** The value [scheduleReminder] returns for [notificationIds[0]]. *)
Definition answer_of (primary : option string) : Nullable string :=
  match primary with
  | Some handle => JValue handle
  | None => JUndefined
  end.

(** The character of a decimal digit. *)
Definition digit (d : Z) : ascii := ascii_of_nat (48 + Z.to_nat d).

(** A number below 100 on two decimal digits. *)
Definition two_digits (n : Z) : string :=
  String (digit (n / 10)) (String (digit (n mod 10)) EmptyString).

(** The time of day [h]:[m] as the setup screen writes it. *)
Definition hhmm (h m : Z) : string :=
  (two_digits h ++ ":" ++ two_digits m)%string.

(** Does the source's parse of [hhmm h m] give back [h] and [m]? *)
Definition time_parses (h m : Z) : bool :=
  match map Number (split ":" (hhmm h m)) with
  | [Num h'; Num m'] => (h' =? h) && (m' =? m)
  | _ => false
  end.

(** The weekdays of the weekly triggers of a list. *)
Fixpoint weekdays (ts : list Trigger) : list Z :=
  match ts with
  | [] => []
  | WeeklyTrigger wd _ _ _ :: rest => wd :: weekdays rest
  | TimeIntervalTrigger _ _ :: rest => weekdays rest
  end.

(** The reminder the setup screen creates, for Monday, Wednesday, Friday. *)
Definition sample_reminder : MedicationReminder :=
  mkReminder "r1" "m1" "Aspirin" "100mg" "09:00" [1; 3; 5] true None.

(** No two entries of the persisted reminder collection share an id. *)
Definition ids_distinct (w : World) : Prop :=
  match medication_reminders w with
  | Json rs => NoDup (map id rs)
  | _ => True
  end.

(** A value handed to the store holds no two reminders of the same id. *)
Definition distinct_write (v : Stored) : Prop :=
  match v with
  | RemindersJson rs => NoDup (map id rs)
  | MedicationsJson _ => True
  end.

(** An operation that returns on every world. *)
Definition never_throws {A} (m : M A) : Prop :=
  forall w, exists a, fst (m w) = Returned a.

(** ** The reminder setup screen

    The handlers of the component [NotificationSetup], which calls the
    service.  A handler runs against the value of the [reminders] state it
    closed over and has, besides its platform calls, effects on the
    screen: state updates and alerts.  It is embedded as an operation that
    returns the list of these effects in order. *)

Inductive UiEffect : Type :=
| setReminders (reminders : list MedicationReminder)
| setLoading (loading : bool)
| Alert_alert (title message : string).

(** [String(n)] for an integer (decimal digits, with a sign when negative;
    exact below 10^21 in absolute value). *)
Definition js_toString (n : Z) : string :=
  NilZero.string_of_int (Z.to_int n).

(** The step of an insertion sort under the default comparison of
    [Array.prototype.sort]: elements are compared as strings, and an
    element stays before those it is not greater than. *)
Fixpoint sort_insert (x : Z) (l : list Z) : list Z :=
  match l with
  | [] => [x]
  | y :: rest =>
      if String.ltb (js_toString y) (js_toString x)
      then y :: sort_insert x rest
      else x :: y :: rest
  end.

(** [array.sort()], a stable sort with no comparison function. *)
Fixpoint js_sort (l : list Z) : list Z :=
  match l with
  | [] => []
  | x :: rest => sort_insert x (js_sort rest)
  end.

(** [array.includes(day)]. *)
Definition includes (l : list Z) (day : Z) : bool :=
  existsb (fun d => d =? day) l.

Module NotificationSetup.

Section Screen.

Variable env : Platform.

(** The property [medicationId] of the component. *)
Variable props_medicationId : string.

(** [notificationId || undefined]. *)
Definition or_undefined (notificationId : Nullable string) : option string :=
  match notificationId with
  | JValue h => if truthy h then Some h else None
  | _ => None
  end.

Definition loadReminders : M (list UiEffect) :=
  effects <-
    try_catch
      (allReminders <- getReminders env ;;
       let medicationReminders :=
         filter (fun r => (medicationId r =? props_medicationId)%string)
                allReminders in
       ret [setReminders medicationReminders])
      (fun error =>
         log (console_error "Failed to load reminders:" error) ;; ret []) ;;
  ret (effects ++ [setLoading false]).

Definition updateReminder (reminders : list MedicationReminder)
    (updatedReminder : MedicationReminder) : M (list UiEffect) :=
  try_catch
    (notificationId <- scheduleReminder env updatedReminder ;;
     let updatedReminders :=
       map (fun r =>
              if (id r =? id updatedReminder)%string
              then with_notificationId updatedReminder
                                       (or_undefined notificationId)
              else r)
           reminders in
     ret [setReminders updatedReminders])
    (fun error =>
       log (console_error "Failed to update reminder:" error) ;;
       ret [Alert_alert "Error" "Failed to update reminder. Please try again."]).

Definition deleteReminder (reminders : list MedicationReminder)
    (reminderId : string) : M (list UiEffect) :=
  try_catch
    (deleteReminder env reminderId ;;
     ret [setReminders
            (filter (fun r => negb (id r =? reminderId)%string) reminders)])
    (fun error =>
       log (console_error "Failed to delete reminder:" error) ;;
       ret [Alert_alert "Error" "Failed to delete reminder. Please try again."]).

(** [{ ...reminder, enabled: !reminder.enabled }]. *)
Definition toggled (reminder : MedicationReminder) : MedicationReminder :=
  mkReminder (id reminder) (medicationId reminder)
             (medicationName reminder) (dosage reminder)
             (scheduledTime reminder) (days reminder)
             (negb (enabled reminder)) (notificationId reminder).

Definition toggleReminderEnabled (reminders : list MedicationReminder)
    (reminder : MedicationReminder) : M (list UiEffect) :=
  updateReminder reminders (toggled reminder).

(** [{ ...reminder, scheduledTime: time }]. *)
Definition at_time (reminder : MedicationReminder) (time : string)
  : MedicationReminder :=
  mkReminder (id reminder) (medicationId reminder)
             (medicationName reminder) (dosage reminder)
             time (days reminder) (enabled reminder) (notificationId reminder).

Definition updateReminderTime (reminders : list MedicationReminder)
    (reminder : MedicationReminder) (time : string) : M (list UiEffect) :=
  updateReminder reminders (at_time reminder time).

(** The days of [toggleDay]: the day is taken out when it is among the
    days, and put in, the whole array then sorted, when it is not. *)
Definition toggled_days (days : list Z) (day : Z) : list Z :=
  if includes days day
  then filter (fun d => negb (d =? day)) days
  else js_sort (days ++ [day]).

(** [{ ...reminder, days }]. *)
Definition on_days (reminder : MedicationReminder) (ds : list Z)
  : MedicationReminder :=
  mkReminder (id reminder) (medicationId reminder)
             (medicationName reminder) (dosage reminder)
             (scheduledTime reminder) ds (enabled reminder)
             (notificationId reminder).

Definition toggleDay (reminders : list MedicationReminder)
    (reminder : MedicationReminder) (day : Z) : M (list UiEffect) :=
  updateReminder reminders
                 (on_days reminder (toggled_days (days reminder) day)).

Definition testNotification : M (list UiEffect) :=
  try_catch
    (testNotification env ;;
     ret [Alert_alert "Test Sent"
                      "Check your notifications to see if it worked!"])
    (fun error =>
       ret [Alert_alert "Test Failed"
              "Unable to send test notification. Please check your settings."]).

End Screen.

End NotificationSetup.

(** ** More vocabulary *)

(** A platform that rejects no call at all. *)
Definition healthy (env : Platform) : Prop :=
  forall n c, rejects env n c = false.

(** The persisted reminders as a list (none when nothing readable is
    stored). *)
Definition stored_reminders (w : World) : list MedicationReminder :=
  match medication_reminders w with
  | Json l => l
  | _ => []
  end.

(** A platform on which every read of the store is rejected, and nothing
    else. *)
Definition unreadable : Platform :=
  mkPlatform (fun _ c => match c with GetItem _ => true | _ => false end)
             (fun _ => "h"%string) "2024-01-01T09:00:00.000Z" "ios" false true.

(** A platform on which every write to the store is rejected, and nothing
    else. *)
Definition read_only : Platform :=
  mkPlatform (fun _ c => match c with SetItem _ _ => true | _ => false end)
             (fun _ => "h"%string) "2024-01-01T09:00:00.000Z" "ios" false true.

(** A platform that accepts the first [k] calls and rejects every
    notification request after them. *)
Definition scheduler_dies_after (k : nat) : Platform :=
  mkPlatform (fun n c => match c with
                         | ScheduleNotification _ => (k <=? n)%nat
                         | _ => false
                         end)
             (fun n => js_toString (Z.of_nat n))
             "2024-01-01T09:00:00.000Z" "ios" false true.

(** A platform that rejects nothing and names each handle after the
    number of the call that made it. *)
Definition numbering : Platform :=
  mkPlatform (fun _ _ => false) (fun n => ("h" ++ js_toString (Z.of_nat n))%string)
             "2024-01-01T09:00:00.000Z" "ios" false true.

(** The world after [n] acknowledgements of the same medication. *)
Fixpoint acknowledged (env : Platform) (medicationId reminderTime : string)
    (n : nat) (w : World) : World :=
  match n with
  | O => w
  | S n' =>
      acknowledged env medicationId reminderTime n'
                   (snd (handleMedicationTaken env medicationId reminderTime w))
  end.

(** The number of calls of a list that satisfy a test. *)
Definition count_calls (f : Call -> bool) (cs : list Call) : nat :=
  length (filter f cs).

Definition is_listener_registration (c : Call) : bool :=
  match c with
  | AddNotificationResponseReceivedListener => true
  | _ => false
  end.

Definition is_token_request (c : Call) : bool :=
  match c with
  | GetExpoPushToken => true
  | _ => false
  end.

(** Does a character occur in a string? *)
Fixpoint has_char (c : ascii) (s : string) : bool :=
  match s with
  | EmptyString => false
  | String c' rest => Ascii.eqb c' c || has_char c rest
  end.

(** ** Accounting for failures

    A failure of a run is a platform call that was rejected, or a stored
    text that was read and does not parse.  An operation accounts for its
    failures when every one of them was written to the console with
    [console.error], or is the error the operation throws. *)










(** ** Basic facts *)

Lemma skipn_length_app {A} (l ext : list A) :
  skipn (length l) (l ++ ext) = ext.
Proof. induction l; simpl; auto. Qed.

Lemma calls_since_ext w w' ext :
  calls w' = (calls w ++ ext) -> calls_since w w' = ext.
Proof. unfold calls_since. intros ->. apply skipn_length_app. Qed.

Lemma storage_ok_get env n k : storage_ok env -> rejects env n (GetItem k) = false.
Proof. intros H. exact (H n (GetItem k)). Qed.

Lemma storage_ok_set env n k v :
  storage_ok env -> rejects env n (SetItem k v) = false.
Proof. intros H. exact (H n (SetItem k v)). Qed.

Example split_time : split ":" "09:00" = ["09"; "00"]%string.
Proof. reflexivity. Qed.

Example split_no_separator : split ":" "0900" = ["0900"]%string.
Proof. reflexivity. Qed.

Example Number_leading_zero : Number "09" = Num 9.
Proof. reflexivity. Qed.

Example Number_not_decimal : Number "9am" = NumberOf "9am".
Proof. reflexivity. Qed.

Example hhmm_sample : hhmm 9 5 = "09:05"%string.
Proof. reflexivity. Qed.

(** Unfolds one operation down to the primitives of the monad. *)
Ltac unfold_monad :=
  unfold getItem_medications, getItem_medication_reminders, setItem,
    scheduleNotificationAsync, JSON_parse, invoke, bind, try_catch, ret,
    throw, log in *.

(** Decides the next platform answer by cases. *)
Ltac case_reject :=
  match goal with
  | |- context [rejects ?e ?n ?c] => destruct (rejects e n c) eqn:?
  end.

(** ** The response listener *)

(** C10.  A response whose payload has no [reminderTime] (absent, or
    empty), or no [medicationId], is dropped by the listener: it returns
    at once and the world is exactly what it was, so no handler ran, no
    adherence was changed, no snooze trigger was registered and no
    notification was sent.  Both fields are needed for any routing. *)
Theorem on_response_needs_both_fields env response w :
  is_set (data_reminderTime (payload_of response)) = false \/
  is_set (data_medicationId (payload_of response)) = false ->
  on_response env response w = (Returned tt, w).
Proof.
  unfold on_response.
  destruct (data_medicationId (payload_of response)) as [mid|];
    destruct (data_reminderTime (payload_of response)) as [rt|];
    simpl; intros [H|H]; try discriminate; try reflexivity;
    rewrite H; rewrite ?orb_true_r; reflexivity.
Qed.

(** A "taken" answer that names the medication but carries no reminder
    time, on a store holding that medication. *)
Lemma on_response_needs_both_fields_witness :
  on_response (steady "h")
    (mkResponse "taken" (Some (mkData (Some "m1") None (Some "medicine_reminder"))))
    (mkWorld (Json [mkMedication "m1" "Aspirin" "100mg" "daily" ["09:00"]
                                 None 90 true "#E91E63"])
             Absent [] [] true None)
  = (Returned tt,
     mkWorld (Json [mkMedication "m1" "Aspirin" "100mg" "daily" ["09:00"]
                                 None 90 true "#E91E63"])
             Absent [] [] true None).
Proof.
  apply on_response_needs_both_fields. left. reflexivity.
Defined.

(** ** Acknowledging a dose *)

Lemma mark_taken_other env i m :
  (med_id m =? i)%string = false -> mark_taken env i m = m.
Proof. unfold mark_taken. intros ->. reflexivity. Qed.

Lemma mark_taken_match env i m :
  (med_id m =? i)%string = true -> dose_recorded env m (mark_taken env i m).
Proof.
  unfold mark_taken, dose_recorded. intros ->. simpl.
  repeat split; try reflexivity; lia.
Qed.

Lemma map_mark_taken_unknown env i meds :
  ~ In i (map med_id meds) -> map (mark_taken env i) meds = meds.
Proof.
  induction meds as [|m meds IH]; simpl; intros H; [reflexivity|].
  rewrite IH by tauto. rewrite mark_taken_other; [reflexivity|].
  apply String.eqb_neq. tauto.
Qed.

Lemma map_mark_taken_rel env i meds :
  Forall2 (fun m m' => if (med_id m =? i)%string
                       then dose_recorded env m m' else m' = m)
          meds (map (mark_taken env i) meds).
Proof.
  induction meds as [|m meds IH]; simpl; constructor; auto.
  destruct (med_id m =? i)%string eqn:E.
  - now apply mark_taken_match.
  - now apply mark_taken_other.
Qed.

(** The run of [handleMedicationTaken] on a readable store. *)
Lemma handleMedicationTaken_run env i t w meds :
  storage_ok env -> medications w = Json meds ->
  let w' := snd (handleMedicationTaken env i t w) in
  medications w' = Json (map (mark_taken env i) meds) /\
  calls_since w w' =
    [GetItem "medications";
     SetItem "medications" (MedicationsJson (map (mark_taken env i) meds));
     ScheduleNotification
       (mkRequest
          (mkContent "Dose Recorded"
                     (display_name i meds ++ " marked as taken")%string
                     (mkData None None (Some "confirmation")) true None None)
          None)].
Proof.
  intros Hs Hm. unfold handleMedicationTaken, showLocalNotification.
  unfold_monad. simpl.
  rewrite (storage_ok_get _ _ _ Hs). simpl. rewrite Hm. simpl.
  rewrite (storage_ok_set _ _ _ _ Hs). simpl.
  case_reject; simpl; (split; [reflexivity|]);
    apply calls_since_ext; rewrite <- !app_assoc; reflexivity.
Qed.

(** C1.  On a store that answers and holds the collection [meds], an
    acknowledgement for [medicationId] leaves the collection with, record
    by record: for a record with that id, [lastTaken] the current time and
    the adherence raised by 2 but never above 100 (99 gives 100), the
    other fields as they were; every other record as it was.  When no
    record has the id, the collection is the same value as before. *)
Theorem handleMedicationTaken_known_and_unknown env medicationId reminderTime w meds :
  storage_ok env -> medications w = Json meds ->
  exists meds',
    medications (snd (handleMedicationTaken env medicationId reminderTime w))
      = Json meds' /\
    Forall2 (fun m m' => if (med_id m =? medicationId)%string
                         then dose_recorded env m m' else m' = m)
            meds meds' /\
    (~ In medicationId (map med_id meds) -> meds' = meds).
Proof.
  intros Hs Hm.
  destruct (handleMedicationTaken_run env medicationId reminderTime w meds Hs Hm)
    as [H _].
  exists (map (mark_taken env medicationId) meds). split; [exact H|]. split.
  - apply map_mark_taken_rel.
  - apply map_mark_taken_unknown.
Qed.

Example adherence_99_becomes_100 :
  medications
    (snd (handleMedicationTaken (steady "h") "m1" "09:00"
            (mkWorld (Json [mkMedication "m1" "Aspirin" "100mg" "daily"
                                         ["09:00"] None 99 true "#E91E63";
                            mkMedication "m2" "Zinc" "5mg" "daily"
                                         ["20:00"] None 50 true "#9C27B0"])
                     Absent [] [] true None)))
  = Json [mkMedication "m1" "Aspirin" "100mg" "daily" ["09:00"]
                       (Some "2024-01-01T09:00:00.000Z") 100 true "#E91E63";
          mkMedication "m2" "Zinc" "5mg" "daily" ["20:00"] None 50 true
                       "#9C27B0"].
Proof. reflexivity. Qed.

Lemma handleMedicationTaken_known_and_unknown_witness :
  exists meds',
    medications
      (snd (handleMedicationTaken (steady "h") "m1" "09:00"
              (mkWorld (Json [mkMedication "m1" "Aspirin" "100mg" "daily"
                                           ["09:00"] None 99 true "#E91E63";
                              mkMedication "m2" "Zinc" "5mg" "daily"
                                           ["20:00"] None 50 true "#9C27B0"])
                       Absent [] [] true None)))
      = Json meds' /\
    Forall2 (fun m m' => if (med_id m =? "m1")%string
                         then dose_recorded (steady "h") m m' else m' = m)
            [mkMedication "m1" "Aspirin" "100mg" "daily" ["09:00"] None 99
                          true "#E91E63";
             mkMedication "m2" "Zinc" "5mg" "daily" ["20:00"] None 50 true
                          "#9C27B0"]
            meds' /\
    (~ In "m1" (map med_id
                  [mkMedication "m1" "Aspirin" "100mg" "daily" ["09:00"] None
                                99 true "#E91E63";
                   mkMedication "m2" "Zinc" "5mg" "daily" ["20:00"] None 50
                                true "#9C27B0"]) ->
     meds' = [mkMedication "m1" "Aspirin" "100mg" "daily" ["09:00"] None 99
                           true "#E91E63";
              mkMedication "m2" "Zinc" "5mg" "daily" ["20:00"] None 50 true
                           "#9C27B0"]).
Proof.
  apply handleMedicationTaken_known_and_unknown.
  - intros n c; destruct c; simpl; reflexivity || exact I.
  - reflexivity.
Defined.

Lemma display_name_unknown i meds :
  ~ In i (map med_id meds) -> display_name i meds = "Medication".
Proof.
  unfold display_name. intros H.
  destruct (find (fun m => (med_id m =? i)%string) meds) as [m|] eqn:F;
    [|reflexivity].
  apply find_some in F. destruct F as [Hin He].
  apply String.eqb_eq in He. exfalso. apply H. rewrite <- He.
  now apply in_map.
Qed.

(** C9.  An acknowledgement for an id that no record of a present,
    readable collection carries is not free of effects: the whole
    collection is written back to the store, the same value as read, and a
    "Dose Recorded" notification is sent for immediate delivery, with the
    fallback name "Medication" in its text. *)
Theorem handleMedicationTaken_unknown_still_writes_and_notifies
    env medicationId reminderTime w meds :
  storage_ok env -> medications w = Json meds ->
  ~ In medicationId (map med_id meds) ->
  let cs :=
    calls_since w (snd (handleMedicationTaken env medicationId reminderTime w)) in
  writes cs = [MedicationsJson meds] /\
  immediate cs =
    [mkContent "Dose Recorded" "Medication marked as taken"
               (mkData None None (Some "confirmation")) true None None].
Proof.
  intros Hs Hm Hu cs. subst cs.
  destruct (handleMedicationTaken_run env medicationId reminderTime w meds Hs Hm)
    as [_ H].
  rewrite H. rewrite (map_mark_taken_unknown env _ _ Hu).
  rewrite (display_name_unknown _ _ Hu). simpl. split; reflexivity.
Qed.

Lemma handleMedicationTaken_unknown_still_writes_and_notifies_witness :
  let w := mkWorld (Json [mkMedication "m2" "Zinc" "5mg" "daily" ["20:00"]
                                       None 50 true "#9C27B0"])
                   Absent [] [] true None in
  let cs := calls_since w (snd (handleMedicationTaken (steady "h") "m1" "09:00" w)) in
  writes cs = [MedicationsJson [mkMedication "m2" "Zinc" "5mg" "daily"
                                             ["20:00"] None 50 true "#9C27B0"]] /\
  immediate cs =
    [mkContent "Dose Recorded" "Medication marked as taken"
               (mkData None None (Some "confirmation")) true None None].
Proof.
  intros w.
  apply handleMedicationTaken_unknown_still_writes_and_notifies.
  - intros n c; destruct c; simpl; reflexivity || exact I.
  - reflexivity.
  - simpl. intros [H|[]]. discriminate H.
Defined.

(** ** Deferring a reminder *)

(** C6.  On a platform whose store answers with a readable (or absent)
    collection and whose scheduler accepts requests, a snooze for
    [medicationId] and [reminderTime] registers exactly one trigger: a
    time interval of 900 seconds that does not repeat, with those two
    values in its payload.  The stored medications are what they were, so
    no adherence and no [lastTaken] changed. *)
Theorem handleSnoozeReminder_registers_one_shot env medicationId reminderTime w :
  storage_ok env -> scheduler_ok env -> medications w <> Corrupt ->
  let w' := snd (handleSnoozeReminder env medicationId reminderTime w) in
  registered (calls_since w w') = [TimeIntervalTrigger 900 false] /\
  registered_data (calls_since w w') =
    [mkData (Some medicationId) (Some reminderTime) (Some "snoozed_reminder")] /\
  medications w' = medications w.
Proof.
  intros Hs Hr Hc. unfold handleSnoozeReminder, showLocalNotification.
  unfold_monad. simpl.
  rewrite (storage_ok_get _ _ _ Hs). simpl.
  destruct (medications w) as [| |meds] eqn:Hm; [|congruence|]; simpl.
  - rewrite !Hr. simpl. rewrite Hm.
    erewrite calls_since_ext by (simpl; rewrite <- !app_assoc; reflexivity).
    repeat split; reflexivity.
  - destruct (find _ meds); simpl; rewrite !Hr; simpl; rewrite Hm;
      (erewrite calls_since_ext by (simpl; rewrite <- !app_assoc; reflexivity));
      repeat split; reflexivity.
Qed.

Lemma handleSnoozeReminder_registers_one_shot_witness :
  let w := mkWorld (Json [mkMedication "m1" "Aspirin" "100mg" "daily"
                                       ["09:00"] None 90 true "#E91E63"])
                   Absent [] [] true None in
  let w' := snd (handleSnoozeReminder (steady "h") "m1" "09:00" w) in
  registered (calls_since w w') = [TimeIntervalTrigger 900 false] /\
  registered_data (calls_since w w') =
    [mkData (Some "m1") (Some "09:00") (Some "snoozed_reminder")] /\
  medications w' = medications w.
Proof.
  intros w.
  apply handleSnoozeReminder_registers_one_shot.
  - intros n c; destruct c; simpl; reflexivity || exact I.
  - intros n c; reflexivity.
  - discriminate.
Defined.

(** ** Footprints of the operations on reminders *)

Lemma same_stores_refl w : same_stores w w.
Proof. split; reflexivity. Qed.

Lemma registered_app a b :
  registered (a ++ b) = (registered a ++ registered b).
Proof.
  induction a as [|c a IH]; simpl; [reflexivity|].
  destruct c; auto. destruct request as [ct [t|]]; simpl; now rewrite ?IH.
Qed.

Lemma cancels_app a b : cancels (a ++ b) = (cancels a ++ cancels b).
Proof.
  induction a as [|c a IH]; simpl; [reflexivity|].
  destruct c; simpl; now rewrite ?IH.
Qed.

Lemma writes_app a b : writes (a ++ b) = (writes a ++ writes b).
Proof.
  induction a as [|c a IH]; simpl; [reflexivity|].
  destruct c; simpl; now rewrite ?IH.
Qed.

(** [cancelReminder] never throws and issues the one cancellation. *)
Lemma cancelReminder_run env h w :
  fst (cancelReminder env h w) = Returned tt /\
  calls (snd (cancelReminder env h w))
    = (calls w ++ [CancelScheduledNotification h]) /\
  same_stores w (snd (cancelReminder env h w)).
Proof.
  unfold cancelReminder. unfold_monad. simpl.
  case_reject; simpl; repeat split; reflexivity.
Qed.

Lemma getReminders_run env w :
  fst (getReminders env w) = Returned (listed env w) /\
  calls (snd (getReminders env w))
    = (calls w ++ [GetItem "medication_reminders"]) /\
  same_stores w (snd (getReminders env w)).
Proof.
  unfold getReminders, listed. unfold_monad. simpl.
  case_reject; simpl; [repeat split; reflexivity|].
  destruct (medication_reminders w); simpl; repeat split; reflexivity.
Qed.

Lemma listed_cases env w :
  listed env w = [] \/ medication_reminders w = Json (listed env w).
Proof.
  unfold listed. destruct (rejects _ _ _); [now left|].
  destruct (medication_reminders w); auto.
Qed.

(** [saveReminder] never throws; it reads, then writes the collection
    without the entries of the same id and with the reminder at the end.
    The store holds that collection afterwards, or, when the write was
    rejected, what it held before. *)
Lemma saveReminder_run env r w :
  let saved :=
    (filter (fun x => negb (id x =? id r)%string) (listed env w) ++ [r]) in
  let w' := snd (saveReminder env r w) in
  fst (saveReminder env r w) = Returned tt /\
  calls w' = (calls w ++ [GetItem "medication_reminders";
                          SetItem "medication_reminders" (RemindersJson saved)]) /\
  medications w' = medications w /\
  (medication_reminders w' = Json saved \/
   medication_reminders w' = medication_reminders w).
Proof.
  unfold saveReminder, getReminders, listed. unfold_monad. simpl.
  case_reject; simpl.
  - case_reject; simpl; rewrite <- !app_assoc; simpl; repeat split; auto.
  - destruct (medication_reminders w) eqn:E; simpl;
      case_reject; simpl; rewrite <- !app_assoc; simpl; repeat split; auto.
Qed.

(** The loop touches no store; it issues the registrations of a prefix of
    the days, all of them when it completes, and it then returns one
    identifier per day after those it started from. *)
Lemma schedule_days_run env r h m ds :
  forall acc w,
    let o := fst (schedule_days env r h m ds acc w) in
    let w' := snd (schedule_days env r h m ds acc w) in
    same_stores w w' /\
    exists k,
      calls w' = (calls w ++ weekly_calls r h m (firstn k ds)) /\
      match o with
      | Returned ids =>
          firstn k ds = ds /\
          exists new, ids = (acc ++ new) /\ length new = length ds
      | Thrown _ => True
      end.
Proof.
  induction ds as [|d ds IH]; intros acc w; simpl.
  - split; [apply same_stores_refl|]. exists 0%nat. simpl.
    rewrite app_nil_r. split; [reflexivity|]. split; [reflexivity|].
    exists []. rewrite app_nil_r. auto.
  - unfold scheduleNotificationAsync, invoke, bind. simpl.
    case_reject; simpl.
    + split; [split; reflexivity|]. exists 1%nat. simpl. auto.
    + specialize (IH (acc ++ [reply env (length (calls w))])
                     (issue (ScheduleNotification (weekly_request r h m d)) w)).
      simpl in IH. destruct IH as [Hs [k [Hc Ho]]].
      split; [exact Hs|]. exists (S k).
      rewrite Hc. simpl. rewrite <- app_assoc. simpl. split; [reflexivity|].
      destruct (fst (schedule_days env r h m ds _ _)); [|exact I].
      destruct Ho as [Hk [new [Hi Hl]]]. split; [now rewrite Hk|].
      exists (reply env (length (calls w)) :: new). rewrite Hi.
      rewrite <- app_assoc. simpl. auto.
Qed.

(** When the scheduler accepts every request the loop completes. *)
Lemma schedule_days_returns env r h m ds :
  scheduler_ok env ->
  forall acc w, exists ids,
    fst (schedule_days env r h m ds acc w) = Returned ids.
Proof.
  intros Hr. induction ds as [|d ds IH]; intros acc w; simpl.
  - now exists acc.
  - unfold scheduleNotificationAsync, invoke, bind. simpl.
    rewrite Hr. apply IH.
Qed.

Lemma registered_weekly_calls r h m ds :
  registered (weekly_calls r h m ds)
  = map (fun d => WeeklyTrigger (registrar_weekday d) h m true) ds.
Proof. induction ds; simpl; now rewrite ?IHds. Qed.

Lemma cancels_weekly_calls r h m ds : cancels (weekly_calls r h m ds) = [].
Proof. induction ds; simpl; auto. Qed.

Lemma writes_weekly_calls r h m ds : writes (weekly_calls r h m ds) = [].
Proof. induction ds; simpl; auto. Qed.

Lemma scheduleReminder_enabled env r :
  enabled r = true ->
  scheduleReminder env r =
  try_catch
    (cancel_prior env r ;;
     notificationIds <-
       schedule_days env r (parsed_hours r) (parsed_minutes r) (days r) [] ;;
     saveReminder env (with_notificationId r (nth_error notificationIds 0)) ;;
     ret (answer_of (nth_error notificationIds 0)))
    (fun error =>
       log (console_error "Failed to schedule reminder:" error) ;;
       ret JNull).
Proof. intros He. unfold scheduleReminder. rewrite He. reflexivity. Qed.

Lemma cancel_prior_run env r w :
  fst (cancel_prior env r w) = Returned tt /\
  calls (snd (cancel_prior env r w)) = calls w ++ prior_cancel r /\
  same_stores w (snd (cancel_prior env r w)).
Proof.
  unfold cancel_prior, prior_cancel, is_set.
  destruct (notificationId r) as [h|]; [destruct (truthy h)|].
  - apply cancelReminder_run.
  - simpl. rewrite app_nil_r. repeat split; reflexivity.
  - simpl. rewrite app_nil_r. repeat split; reflexivity.
Qed.

Lemma scheduleReminder_run env r w :
  enabled r = true ->
  exists k tail,
    calls (snd (scheduleReminder env r w))
      = calls w ++ prior_cancel r
          ++ weekly_calls r (parsed_hours r) (parsed_minutes r)
               (firstn k (days r))
          ++ tail /\
    medications (snd (scheduleReminder env r w)) = medications w /\
    schedule_end env r w k tail
      (fst (scheduleReminder env r w)) (snd (scheduleReminder env r w)).
Proof.
  intros He. rewrite (scheduleReminder_enabled env r He).
  match goal with
  | |- context [try_catch ?b ?h w] =>
      destruct (try_catch b h w) as [o w'] eqn:E
  end.
  cbn [fst snd]. unfold try_catch in E. unfold bind at 1 in E.
  destruct (cancel_prior_run env r w) as [Ho1 [Hc1 [Hm1 Hr1]]].
  destruct (cancel_prior env r w) as [o1 w1].
  cbn [fst snd] in Ho1, Hc1, Hm1, Hr1. subst o1.
  unfold bind at 1 in E.
  pose proof (schedule_days_run env r (parsed_hours r) (parsed_minutes r)
                (days r) [] w1) as H2.
  cbv zeta in H2. destruct H2 as [[Hm2 Hr2] [k [Hc2 Ho2]]].
  destruct (schedule_days env r (parsed_hours r) (parsed_minutes r)
              (days r) [] w1) as [o2 w2] eqn:E2.
  cbn [fst snd] in Hm2, Hr2, Hc2, Ho2.
  destruct o2 as [ids|e] eqn:Eo2.
  - destruct Ho2 as [Hk [new [Hi Hl]]]. cbn [app] in Hi. subst new.
    pose proof (saveReminder_run env
                  (with_notificationId r (nth_error ids 0)) w2) as H3.
    cbv zeta in H3. destruct H3 as [Ho3 [Hc3 [Hm3 Hr3]]].
    unfold bind at 1 in E.
    destruct (saveReminder env (with_notificationId r (nth_error ids 0)) w2)
      as [o3 w3].
    cbn [fst snd] in Ho3, Hc3, Hm3, Hr3. subst o3. unfold ret in E.
    injection E as <- <-.
    exists k. eexists. split; [|split].
    + rewrite Hc3, Hc2, Hc1. rewrite <- !app_assoc. reflexivity.
    + congruence.
    + apply loop_completed with (ids := ids) (existing := listed env w2);
        auto.
      * destruct (listed_cases env w2) as [H|H]; [now left|right; congruence].
      * destruct Hr3 as [H|H]; [now left|right; congruence].
  - unfold log, ret, bind in E. injection E as <- <-.
    exists k, []. split; [|split].
    + cbn [calls]. rewrite Hc2, Hc1. rewrite <- !app_assoc.
      rewrite app_nil_r. reflexivity.
    + cbn [medications]. congruence.
    + apply loop_stopped; auto.
      * exists e, w1. now rewrite E2.
      * cbn [medication_reminders]. congruence.
Qed.

(** ** Scheduling a reminder *)

Lemma all_times_parse :
  forallb (fun h => forallb (fun m => time_parses (Z.of_nat h) (Z.of_nat m))
                            (seq 0 60))
          (seq 0 24) = true.
Proof. vm_compute. reflexivity. Qed.

Lemma parse_hhmm h m :
  0 <= h <= 23 -> 0 <= m <= 59 ->
  map Number (split ":" (hhmm h m)) = [Num h; Num m].
Proof.
  intros Hh Hm. pose proof all_times_parse as H.
  rewrite forallb_forall in H.
  specialize (H (Z.to_nat h)). rewrite in_seq in H.
  assert (H' := H ltac:(lia)). clear H. rewrite forallb_forall in H'.
  specialize (H' (Z.to_nat m)). rewrite in_seq in H'.
  assert (P := H' ltac:(lia)). clear H'.
  rewrite !Z2Nat.id in P by lia. unfold time_parses in P.
  destruct (map Number (split ":" (hhmm h m))) as [|[a|] [|[b|] [|]]];
    try discriminate.
  apply andb_true_iff in P. destruct P as [Pa Pb].
  apply Z.eqb_eq in Pa, Pb. now subst.
Qed.

Lemma registrar_weekday_succ d : registrar_weekday d = d + 1.
Proof. unfold registrar_weekday. destruct (Z.eqb_spec d 0); lia. Qed.

Lemma weekdays_weekly h m ds :
  weekdays (map (fun d => WeeklyTrigger (registrar_weekday d) h m true) ds)
  = map (fun d => d + 1) ds.
Proof.
  induction ds as [|d ds IH]; simpl; [reflexivity|].
  now rewrite IH, registrar_weekday_succ.
Qed.

Lemma registered_prior_cancel r : registered (prior_cancel r) = [].
Proof.
  unfold prior_cancel. destruct (notificationId r) as [h|]; auto.
  destruct (truthy h); auto.
Qed.

(** What a run on an enabled reminder registers when no registration is
    rejected: one weekly trigger per day. *)
Lemma scheduleReminder_registered env r w :
  scheduler_ok env -> enabled r = true ->
  registered (calls_since w (snd (scheduleReminder env r w)))
  = map (fun d => WeeklyTrigger (registrar_weekday d)
                                (parsed_hours r) (parsed_minutes r) true)
        (days r).
Proof.
  intros Hr He.
  destruct (scheduleReminder_run env r w He) as [k [tail [Hc [_ Hend]]]].
  rewrite (calls_since_ext _ _ _ Hc). rewrite !registered_app.
  rewrite registered_prior_cancel, registered_weekly_calls. simpl.
  destruct Hend as [[e [w1 Hthrown]] _ _ _ | ids existing Hk _ _ _ Ht _].
  - destruct (schedule_days_returns env r (parsed_hours r) (parsed_minutes r)
                (days r) Hr [] w1) as [ids Hret].
    congruence.
  - rewrite Hk, Ht. simpl. now rewrite app_nil_r.
Qed.

(** C2.  For an enabled reminder whose time is a well-formed [HH:MM] and
    whose days are [k] distinct indices among 0..6, on a scheduler that
    accepts requests, [scheduleReminder] registers exactly [k] triggers:
    one weekly trigger per day, in order, with the hour and the minute of
    the time, [repeats] set, and the weekday the source's conditional
    gives.  On 0..6 that conditional is [day + 1], so the weekdays are
    pairwise distinct and lie in 1..7. *)
Theorem scheduleReminder_registers_one_trigger_per_day env r w h m :
  scheduler_ok env -> enabled r = true ->
  0 <= h <= 23 -> 0 <= m <= 59 -> scheduledTime r = hhmm h m ->
  NoDup (days r) -> Forall (fun d => 0 <= d <= 6) (days r) ->
  let ts := registered (calls_since w (snd (scheduleReminder env r w))) in
  ts = map (fun d => WeeklyTrigger (if d =? 0 then 1 else d + 1)
                                   (Some (Num h)) (Some (Num m)) true)
           (days r) /\
  length ts = length (days r) /\
  (forall d, 0 <= d <= 6 -> (if d =? 0 then 1 else d + 1) = d + 1) /\
  length (weekdays ts) = length (days r) /\
  NoDup (weekdays ts) /\
  Forall (fun wd => 1 <= wd <= 7) (weekdays ts).
Proof.
  intros Hr He Hh Hm Ht Hnd Hrange ts.
  assert (Hts : ts = map (fun d => WeeklyTrigger (registrar_weekday d)
                                     (Some (Num h)) (Some (Num m)) true)
                         (days r)).
  { subst ts. rewrite (scheduleReminder_registered env r w Hr He).
    unfold parsed_hours, parsed_minutes. rewrite Ht.
    rewrite (parse_hhmm h m Hh Hm). reflexivity. }
  split; [exact Hts|]. split; [rewrite Hts; apply length_map|].
  split; [intros d _; destruct (Z.eqb_spec d 0); lia|].
  rewrite Hts, weekdays_weekly. split; [apply length_map|]. split.
  - apply Injective_map_NoDup; [|exact Hnd]. intros a b; lia.
  - rewrite Forall_map. eapply Forall_impl; [|exact Hrange].
    simpl. intros; lia.
Qed.

Example sample_reminder_run :
  calls (snd (scheduleReminder (steady "h") sample_reminder empty_world))
  = weekly_calls sample_reminder (Some (Num 9)) (Some (Num 0)) [1; 3; 5]
    ++ [GetItem "medication_reminders";
        SetItem "medication_reminders"
          (RemindersJson [with_notificationId sample_reminder (Some "h")])].
Proof. reflexivity. Qed.

Lemma scheduleReminder_registers_one_trigger_per_day_witness :
  let ts := registered
              (calls_since empty_world
                 (snd (scheduleReminder (steady "h") sample_reminder
                         empty_world))) in
  ts = map (fun d => WeeklyTrigger (if d =? 0 then 1 else d + 1)
                                   (Some (Num 9)) (Some (Num 0)) true)
           (days sample_reminder) /\
  length ts = length (days sample_reminder) /\
  (forall d, 0 <= d <= 6 -> (if d =? 0 then 1 else d + 1) = d + 1) /\
  length (weekdays ts) = length (days sample_reminder) /\
  NoDup (weekdays ts) /\
  Forall (fun wd => 1 <= wd <= 7) (weekdays ts).
Proof.
  apply (scheduleReminder_registers_one_trigger_per_day
           (steady "h") sample_reminder empty_world 9 0).
  - intros n c; reflexivity.
  - reflexivity.
  - lia.
  - lia.
  - reflexivity.
  - simpl. repeat constructor; simpl; intuition lia.
  - simpl. repeat constructor; lia.
Defined.

(** C3.  For an enabled reminder with no day, [scheduleReminder] registers
    nothing, whatever the platform answers; and what it returns is the
    first element of an empty array, that is [undefined], where the
    declared result type and the other paths without a handle have
    [null]. *)
Theorem scheduleReminder_no_days_returns_undefined env r w :
  enabled r = true -> days r = [] ->
  fst (scheduleReminder env r w) = Returned JUndefined /\
  registered (calls_since w (snd (scheduleReminder env r w))) = [].
Proof.
  intros He Hd.
  destruct (scheduleReminder_run env r w He) as [k [tail [Hc [_ Hend]]]].
  rewrite (calls_since_ext _ _ _ Hc). rewrite !registered_app.
  rewrite registered_prior_cancel, registered_weekly_calls.
  rewrite Hd in *. rewrite firstn_nil. simpl.
  destruct Hend as [[e [w1 Hthrown]] _ _ _ | ids existing _ Hl _ Ho Ht _].
  - rewrite Hd in Hthrown. discriminate Hthrown.
  - rewrite Hd in Hl. destruct ids; [|discriminate Hl].
    rewrite Ho, Ht. split; reflexivity.
Qed.

Lemma scheduleReminder_no_days_returns_undefined_witness :
  fst (scheduleReminder (steady "h")
         (mkReminder "r1" "m1" "Aspirin" "100mg" "09:00" [] true None)
         empty_world) = Returned JUndefined /\
  registered
    (calls_since empty_world
       (snd (scheduleReminder (steady "h")
               (mkReminder "r1" "m1" "Aspirin" "100mg" "09:00" [] true None)
               empty_world))) = [].
Proof.
  apply scheduleReminder_no_days_returns_undefined; reflexivity.
Defined.

(** The two other ways [scheduleReminder] ends without a handle both
    answer [null]: a disabled reminder, and a rejected registration. *)
Lemma scheduleReminder_disabled env r w :
  enabled r = false -> scheduleReminder env r w = (Returned JNull, w).
Proof. intros He. unfold scheduleReminder. rewrite He. reflexivity. Qed.

Example scheduleReminder_rejected_returns_null :
  fst (scheduleReminder failing sample_reminder empty_world) = Returned JNull.
Proof. reflexivity. Qed.

Lemma cancels_tail_of_schedule env r w k tail o w' :
  schedule_end env r w k tail o w' -> cancels tail = [].
Proof. intros [_ _ -> _ | ids existing _ _ _ _ -> _]; reflexivity. Qed.

(** C5.  For an enabled reminder that already carries a handle, a run of
    [scheduleReminder] starts with the cancellation of that handle and
    issues no other cancellation, whatever the platform answers: one
    cancel call, for that handle, before every registration of the run. *)
Theorem scheduleReminder_cancels_old_handle_first env r w h :
  enabled r = true -> notificationId r = Some h -> h <> ""%string ->
  exists rest,
    calls_since w (snd (scheduleReminder env r w))
      = CancelScheduledNotification h :: rest /\
    cancels rest = [].
Proof.
  intros He Hn Hh.
  destruct (scheduleReminder_run env r w He) as [k [tail [Hc [_ Hend]]]].
  rewrite (calls_since_ext _ _ _ Hc).
  unfold prior_cancel. rewrite Hn. unfold truthy.
  apply String.eqb_neq in Hh. rewrite Hh. simpl.
  eexists. split; [reflexivity|].
  rewrite cancels_app, cancels_weekly_calls.
  now rewrite (cancels_tail_of_schedule _ _ _ _ _ _ _ Hend).
Qed.

Lemma scheduleReminder_cancels_old_handle_first_witness :
  exists rest,
    calls_since empty_world
      (snd (scheduleReminder (steady "h2")
              (with_notificationId sample_reminder (Some "h1")) empty_world))
      = CancelScheduledNotification "h1" :: rest /\
    cancels rest = [].
Proof.
  apply scheduleReminder_cancels_old_handle_first.
  - reflexivity.
  - reflexivity.
  - discriminate.
Defined.

(** ** Deleting a reminder *)

Lemma deleteReminder_run env i w :
  let rs := listed env w in
  let pre := match find (fun r => (id r =? i)%string) rs with
             | Some r => prior_cancel r
             | None => []
             end in
  let kept := filter (fun r => negb (id r =? i)%string) rs in
  let w' := snd (deleteReminder env i w) in
  fst (deleteReminder env i w) = Returned tt /\
  calls w' = calls w ++ GetItem "medication_reminders" :: pre
               ++ [SetItem "medication_reminders" (RemindersJson kept)] /\
  medications w' = medications w /\
  (medication_reminders w' = Json kept \/
   medication_reminders w' = medication_reminders w /\
   exists n, rejects env n (SetItem "medication_reminders"
                                    (RemindersJson kept)) = true).
Proof.
  cbv zeta. unfold deleteReminder.
  match goal with
  | |- context [try_catch ?b ?h w] =>
      destruct (try_catch b h w) as [o w'] eqn:E
  end.
  cbn [fst snd]. unfold try_catch in E. unfold bind at 1 in E.
  destruct (getReminders_run env w) as [Ho1 [Hc1 [Hm1 Hr1]]].
  destruct (getReminders env w) as [o1 w1].
  cbn [fst snd] in Ho1, Hc1, Hm1, Hr1. subst o1.
  set (rs := listed env w) in *.
  unfold bind at 1 in E.
  set (step := match find (fun r => (id r =? i)%string) rs with
               | Some r =>
                   match notificationId r with
                   | Some handle =>
                       if truthy handle then cancelReminder env handle
                       else ret tt
                   | None => ret tt
                   end
               | None => ret tt
               end) in E.
  assert (H2 : fst (step w1) = Returned tt /\
               calls (snd (step w1))
               = calls w1 ++ match find (fun r => (id r =? i)%string) rs with
                             | Some r => prior_cancel r
                             | None => []
                             end /\
               same_stores w1 (snd (step w1))).
  { unfold step, prior_cancel.
    destruct (find _ rs) as [r|];
      [destruct (notificationId r) as [h|]; [destruct (truthy h)|]|];
      try apply cancelReminder_run;
      simpl; rewrite app_nil_r; repeat split; reflexivity. }
  destruct H2 as [Ho2 [Hc2 [Hm2 Hr2]]].
  destruct (step w1) as [o2 w2]. cbn [fst snd] in Ho2, Hc2, Hm2, Hr2.
  subst o2. unfold setItem, invoke, bind, log in E. cbn [key_of] in E.
  destruct (rejects env (length (calls w2)) _) eqn:R in E;
    injection E as <- <-;
    cbn [calls medications medication_reminders issue store];
    (split; [reflexivity|]);
    (split; [rewrite Hc2, Hc1; rewrite <- !app_assoc; reflexivity|]);
    (split; [congruence|]).
  - right. split; [congruence|]. eexists. exact R.
  - left. reflexivity.
Qed.

Lemma listed_storage_ok env w rs :
  storage_ok env -> medication_reminders w = Json rs -> listed env w = rs.
Proof.
  intros Hs Hr. unfold listed. rewrite (storage_ok_get _ _ _ Hs).
  now rewrite Hr.
Qed.

Lemma filter_other_ids i (rs : list MedicationReminder) :
  ~ In i (map id rs) ->
  filter (fun r => negb (id r =? i)%string) rs = rs.
Proof.
  induction rs as [|r rs IH]; simpl; intros H; [reflexivity|].
  destruct (String.eqb_spec (id r) i) as [E|E]; [tauto|].
  simpl. rewrite IH; tauto.
Qed.

Lemma find_other_ids i (rs : list MedicationReminder) :
  ~ In i (map id rs) -> find (fun r => (id r =? i)%string) rs = None.
Proof.
  induction rs as [|r rs IH]; simpl; intros H; [reflexivity|].
  destruct (String.eqb_spec (id r) i) as [E|E]; [tauto|].
  apply IH. tauto.
Qed.

Lemma filter_removes_id i (rs : list MedicationReminder) :
  ~ In i (map id (filter (fun r => negb (id r =? i)%string) rs)).
Proof.
  rewrite in_map_iff. intros [r [Hi Hin]].
  apply filter_In in Hin. destruct Hin as [_ Hn].
  rewrite <- Hi, String.eqb_refl in Hn. discriminate Hn.
Qed.

(** The claim C4 as stated fails on its second half: deleting an id that
    the persisted collection does not hold still writes to the store. *)
Lemma deleteReminder_unknown_id_writes :
  ~ In "r9"%string (map id [sample_reminder]) /\
  writes
    (calls_since
       (mkWorld Absent (Json [sample_reminder]) [] [] true None)
       (snd (deleteReminder (steady "h") "r9"
               (mkWorld Absent (Json [sample_reminder]) [] [] true None))))
  <> [].
Proof.
  split.
  - simpl. intros [H|[]]. discriminate H.
  - vm_compute. discriminate.
Qed.

(** C4, amended.  On a store that answers and holds the collection [rs]:
    when the first entry of id [reminderId] carries a handle,
    [deleteReminder] issues exactly one cancellation, for that handle, and
    leaves the store with the collection without the entries of that id;
    when no entry has the id, it makes no call to the trigger registrar
    and writes the collection back once, unchanged. *)
Theorem deleteReminder_cancels_and_removes env reminderId w rs :
  storage_ok env -> medication_reminders w = Json rs ->
  let w' := snd (deleteReminder env reminderId w) in
  let cs := calls_since w w' in
  let kept := filter (fun r => negb (id r =? reminderId)%string) rs in
  (forall r h,
      find (fun x => (id x =? reminderId)%string) rs = Some r ->
      notificationId r = Some h -> h <> ""%string ->
      cancels cs = [h] /\
      medication_reminders w' = Json kept /\
      ~ In reminderId (map id kept)) /\
  (~ In reminderId (map id rs) ->
   filter is_registrar_call cs = [] /\
   writes cs = [RemindersJson rs] /\
   medication_reminders w' = Json rs).
Proof.
  intros Hs Hr. cbv zeta.
  destruct (deleteReminder_run env reminderId w) as [_ [Hc [_ Hw]]].
  rewrite (listed_storage_ok env w rs Hs Hr) in Hc, Hw.
  rewrite (calls_since_ext _ _ _ Hc).
  assert (Hstore : medication_reminders (snd (deleteReminder env reminderId w))
                   = Json (filter (fun r => negb (id r =? reminderId)%string) rs)).
  { destruct Hw as [H|[_ [n Hn]]]; [exact H|].
    rewrite (storage_ok_set _ _ _ _ Hs) in Hn. discriminate Hn. }
  split.
  - intros r h Hf Hn Hh. rewrite Hf. unfold prior_cancel. rewrite Hn.
    unfold truthy. apply String.eqb_neq in Hh. rewrite Hh. simpl.
    split; [reflexivity|]. split; [exact Hstore|]. apply filter_removes_id.
  - intros Hu. rewrite (find_other_ids _ _ Hu).
    rewrite (filter_other_ids _ _ Hu) in *. simpl.
    repeat split; auto.
Qed.

Lemma deleteReminder_cancels_and_removes_witness :
  let w := mkWorld Absent
                   (Json [with_notificationId sample_reminder (Some "h1")])
                   [] [] true None in
  cancels (calls_since w (snd (deleteReminder (steady "h") "r1" w))) = ["h1"%string] /\
  medication_reminders (snd (deleteReminder (steady "h") "r1" w)) = Json [] /\
  ~ In "r1"%string (map id []).
Proof.
  intros w.
  refine (proj1 (deleteReminder_cancels_and_removes (steady "h") "r1" w
                   [with_notificationId sample_reminder (Some "h1")] _ _)
                (with_notificationId sample_reminder (Some "h1")) "h1"%string
                _ _ _).
  - intros n c; destruct c; simpl; reflexivity || exact I.
  - reflexivity.
  - reflexivity.
  - reflexivity.
  - discriminate.
Defined.

(** ** The ids of the persisted reminders *)

Lemma NoDup_ids_filter (f : MedicationReminder -> bool) rs :
  NoDup (map id rs) -> NoDup (map id (filter f rs)).
Proof.
  induction rs as [|r rs IH]; simpl; intros H; [constructor|].
  inversion H as [|x l Hnotin Hnd]; subst.
  destruct (f r); simpl; [|auto].
  constructor; [|auto].
  rewrite in_map_iff in *. intros [y [Hy Hin]]. apply Hnotin.
  exists y. split; [exact Hy|]. apply filter_In in Hin. tauto.
Qed.

Lemma NoDup_ids_save rs r r' :
  id r' = id r -> NoDup (map id rs) ->
  NoDup (map id (filter (fun x => negb (id x =? id r)%string) rs ++ [r'])).
Proof.
  intros Hi Hnd. rewrite map_app. apply NoDup_app.
  - now apply NoDup_ids_filter.
  - simpl. constructor; [intros []|constructor].
  - simpl. intros a Ha [Hb|[]]. subst a. rewrite Hi in Ha.
    exact (filter_removes_id (id r) rs Ha).
Qed.

Lemma existing_distinct w existing :
  ids_distinct w ->
  existing = [] \/ medication_reminders w = Json existing ->
  NoDup (map id existing).
Proof.
  unfold ids_distinct. intros Hd [->|H]; [constructor|].
  now rewrite H in Hd.
Qed.

Lemma listed_distinct env w : ids_distinct w -> NoDup (map id (listed env w)).
Proof. intros H. exact (existing_distinct w _ H (listed_cases env w)). Qed.

Lemma ids_distinct_store w w' rs :
  ids_distinct w -> NoDup (map id rs) ->
  medication_reminders w' = Json rs \/
  medication_reminders w' = medication_reminders w ->
  ids_distinct w'.
Proof.
  unfold ids_distinct. intros Hd Hn [H|H]; rewrite H; assumption.
Qed.

Lemma calls_since_same w : calls_since w w = [].
Proof. unfold calls_since. apply skipn_all. Qed.

Lemma saveReminder_distinct env r w :
  ids_distinct w ->
  ids_distinct (snd (saveReminder env r w)) /\
  Forall distinct_write (writes (calls_since w (snd (saveReminder env r w)))).
Proof.
  intros Hd. destruct (saveReminder_run env r w) as [_ [Hc [_ Hw]]].
  assert (Hn := NoDup_ids_save (listed env w) r r eq_refl
                  (listed_distinct env w Hd)).
  split.
  - exact (ids_distinct_store w _ _ Hd Hn Hw).
  - rewrite (calls_since_ext _ _ _ Hc). simpl. repeat constructor. exact Hn.
Qed.

Lemma scheduleReminder_distinct env r w :
  ids_distinct w ->
  ids_distinct (snd (scheduleReminder env r w)) /\
  Forall distinct_write
         (writes (calls_since w (snd (scheduleReminder env r w)))).
Proof.
  intros Hd. destruct (enabled r) eqn:He.
  - destruct (scheduleReminder_run env r w He) as [k [tail [Hc [_ Hend]]]].
    rewrite (calls_since_ext _ _ _ Hc). rewrite !writes_app.
    rewrite writes_weekly_calls.
    assert (Hp : writes (prior_cancel r) = []).
    { unfold prior_cancel. destruct (notificationId r) as [h|]; auto.
      destruct (truthy h); auto. }
    rewrite Hp. simpl.
    destruct Hend as [_ _ Ht Hr | ids existing _ _ Hex _ Ht Hr].
    + subst tail. split; [|constructor].
      unfold ids_distinct in *. now rewrite Hr.
    + assert (Hn := NoDup_ids_save existing r
                      (with_notificationId r (nth_error ids 0)) eq_refl
                      (existing_distinct w existing Hd Hex)).
      subst tail. split.
      * exact (ids_distinct_store w _ _ Hd Hn Hr).
      * simpl. repeat constructor. exact Hn.
  - unfold scheduleReminder. rewrite He. simpl.
    rewrite calls_since_same. split; [exact Hd|constructor].
Qed.

Lemma deleteReminder_distinct env i w :
  ids_distinct w ->
  ids_distinct (snd (deleteReminder env i w)) /\
  Forall distinct_write (writes (calls_since w (snd (deleteReminder env i w)))).
Proof.
  intros Hd. destruct (deleteReminder_run env i w) as [_ [Hc [_ Hw]]].
  assert (Hn := NoDup_ids_filter (fun r => negb (id r =? i)%string)
                  (listed env w) (listed_distinct env w Hd)).
  split.
  - apply (ids_distinct_store w _ _ Hd Hn). destruct Hw as [H|[H _]]; auto.
  - rewrite (calls_since_ext _ _ _ Hc).
    change (GetItem "medication_reminders" :: ?l)
      with ([GetItem "medication_reminders"] ++ l).
    rewrite !writes_app. simpl.
    assert (Hp : forall o, writes match o with
                                  | Some r => prior_cancel r
                                  | None => []
                                  end = []).
    { intros [r|]; auto. unfold prior_cancel.
      destruct (notificationId r) as [h|]; auto. destruct (truthy h); auto. }
    rewrite Hp. simpl. repeat constructor. exact Hn.
Qed.

(** C7.  From a store whose persisted reminders have pairwise distinct
    ids, [saveReminder], [scheduleReminder] (which saves) and
    [deleteReminder] leave a store whose persisted reminders have pairwise
    distinct ids, and every collection they hand to the store for writing
    has pairwise distinct ids, whatever the platform answers. *)
Theorem reminder_ids_stay_distinct env w reminder reminderId :
  ids_distinct w ->
  (ids_distinct (snd (saveReminder env reminder w)) /\
   Forall distinct_write
          (writes (calls_since w (snd (saveReminder env reminder w))))) /\
  (ids_distinct (snd (scheduleReminder env reminder w)) /\
   Forall distinct_write
          (writes (calls_since w (snd (scheduleReminder env reminder w))))) /\
  (ids_distinct (snd (deleteReminder env reminderId w)) /\
   Forall distinct_write
          (writes (calls_since w (snd (deleteReminder env reminderId w))))).
Proof.
  intros Hd. split; [|split].
  - now apply saveReminder_distinct.
  - now apply scheduleReminder_distinct.
  - now apply deleteReminder_distinct.
Qed.

Lemma reminder_ids_stay_distinct_witness :
  let w := mkWorld Absent (Json [sample_reminder]) [] [] true None in
  let edited := mkReminder "r1" "m1" "Aspirin" "100mg" "21:30" [0; 6] true
                           (Some "h1") in
  (ids_distinct (snd (saveReminder (steady "h") edited w)) /\
   Forall distinct_write
          (writes (calls_since w (snd (saveReminder (steady "h") edited w))))) /\
  (ids_distinct (snd (scheduleReminder (steady "h") edited w)) /\
   Forall distinct_write
          (writes (calls_since w (snd (scheduleReminder (steady "h") edited w))))) /\
  (ids_distinct (snd (deleteReminder (steady "h") "r1" w)) /\
   Forall distinct_write
          (writes (calls_since w (snd (deleteReminder (steady "h") "r1" w))))).
Proof.
  intros w edited.
  apply reminder_ids_stay_distinct.
  unfold ids_distinct. simpl. repeat constructor. intros [].
Defined.

(** ** Exceptions *)

Lemma try_catch_never_throws {A} (body : M A) (handler : Error -> M A) :
  (forall e, never_throws (handler e)) -> never_throws (try_catch body handler).
Proof.
  intros H w. unfold try_catch. destruct (body w) as [[a|e] w1].
  - now exists a.
  - apply H.
Qed.

Lemma log_then_ret_never_throws {A} (l : LogLine) (a : A) :
  never_throws (log l ;; ret a).
Proof. intros w. now exists a. Qed.

Lemma log_never_throws (l : LogLine) : never_throws (log l).
Proof. intros w. now exists tt. Qed.



(** ** Every failure is logged *)






































Example a_rejected_write_is_logged :
  console (snd (deleteReminder read_only "r1"
                  (mkWorld Absent (Json [sample_reminder]) [] [] true None)))
  = [console_error "Failed to delete reminder:"
       (Rejected (SetItem "medication_reminders" (RemindersJson [])))].
Proof. reflexivity. Qed.

(** * Further properties of the service *)

(** ** The persisted reminders as a collection *)

Lemma healthy_storage_ok env : healthy env -> storage_ok env.
Proof. intros H n c. destruct c; auto. Qed.

Lemma healthy_scheduler_ok env : healthy env -> scheduler_ok env.
Proof. intros H n c. apply H. Qed.

Lemma listed_stored env w :
  storage_ok env -> listed env w = stored_reminders w.
Proof.
  intros Hs. unfold listed, stored_reminders.
  now rewrite (storage_ok_get _ _ _ Hs).
Qed.

Lemma getReminders_storage_ok env w :
  storage_ok env -> fst (getReminders env w) = Returned (stored_reminders w).
Proof.
  intros Hs. destruct (getReminders_run env w) as [H _].
  now rewrite H, (listed_stored env w Hs).
Qed.

Lemma saveReminder_storage_ok env r w :
  storage_ok env ->
  medication_reminders (snd (saveReminder env r w))
  = Json (filter (fun x => negb (id x =? id r)%string) (stored_reminders w)
            ++ [r]).
Proof.
  intros Hs. unfold saveReminder, getReminders, stored_reminders.
  unfold_monad. simpl. rewrite (storage_ok_get _ _ _ Hs). simpl.
  destruct (medication_reminders w); simpl;
    rewrite (storage_ok_set _ _ _ _ Hs); reflexivity.
Qed.

Lemma stored_after_save env r w :
  storage_ok env ->
  stored_reminders (snd (saveReminder env r w))
  = filter (fun x => negb (id x =? id r)%string) (stored_reminders w) ++ [r].
Proof.
  intros Hs. unfold stored_reminders at 1.
  now rewrite (saveReminder_storage_ok env r w Hs).
Qed.

Lemma deleteReminder_storage_ok env i w :
  storage_ok env ->
  medication_reminders (snd (deleteReminder env i w))
  = Json (filter (fun x => negb (id x =? i)%string) (stored_reminders w)).
Proof.
  intros Hs. destruct (deleteReminder_run env i w) as [_ [_ [_ Hw]]].
  rewrite (listed_stored env w Hs) in Hw.
  destruct Hw as [H|[_ [n Hn]]]; [exact H|].
  rewrite (storage_ok_set _ _ _ _ Hs) in Hn. discriminate Hn.
Qed.

Lemma stored_after_delete env i w :
  storage_ok env ->
  stored_reminders (snd (deleteReminder env i w))
  = filter (fun x => negb (id x =? i)%string) (stored_reminders w).
Proof.
  intros Hs. unfold stored_reminders at 1.
  now rewrite (deleteReminder_storage_ok env i w Hs).
Qed.

Lemma filter_twice {A} (f : A -> bool) l : filter f (filter f l) = filter f l.
Proof.
  induction l as [|a l IH]; simpl; [reflexivity|].
  destruct (f a) eqn:E; simpl; rewrite ?E, IH; reflexivity.
Qed.

Lemma filter_out_none i (l : list MedicationReminder) :
  filter (fun x => (id x =? i)%string)
         (filter (fun x => negb (id x =? i)%string) l) = [].
Proof.
  induction l as [|a l IH]; simpl; [reflexivity|].
  destruct (id a =? i)%string eqn:E; simpl; rewrite ?E; auto.
Qed.

Lemma find_after_others i (l : list MedicationReminder) r :
  id r = i ->
  find (fun x => (id x =? i)%string)
       (filter (fun x => negb (id x =? i)%string) l ++ [r]) = Some r.
Proof.
  intros Hi. induction l as [|a l IH]; simpl.
  - now rewrite Hi, String.eqb_refl.
  - destruct (id a =? i)%string eqn:E; simpl; rewrite ?E; auto.
Qed.

(** X1.  Saving then listing is a round trip: on a store that answers,
    [getReminders] after [saveReminder] returns the reminder as the last
    entry, it is the entry found under its id, and it is the only entry
    of that id (an older one is replaced). *)
Theorem saveReminder_then_getReminders env r w :
  storage_ok env ->
  exists others,
    fst (getReminders env (snd (saveReminder env r w)))
      = Returned (others ++ [r]) /\
    ~ In (id r) (map id others) /\
    find (fun x => (id x =? id r)%string) (others ++ [r]) = Some r /\
    filter (fun x => (id x =? id r)%string) (others ++ [r]) = [r].
Proof.
  intros Hs.
  exists (filter (fun x => negb (id x =? id r)%string) (stored_reminders w)).
  rewrite (getReminders_storage_ok _ _ Hs), (stored_after_save env r w Hs).
  split; [reflexivity|]. split; [apply filter_removes_id|]. split.
  - now apply find_after_others.
  - rewrite filter_app, filter_out_none. simpl.
    now rewrite String.eqb_refl.
Qed.

Lemma saveReminder_then_getReminders_witness :
  exists others,
    fst (getReminders (steady "h")
           (snd (saveReminder (steady "h")
                   (with_notificationId sample_reminder (Some "h7"%string))
                   (mkWorld Absent (Json [sample_reminder]) [] [] true None))))
      = Returned (others
                    ++ [with_notificationId sample_reminder (Some "h7"%string)]) /\
    ~ In (id (with_notificationId sample_reminder (Some "h7"%string)))
         (map id others) /\
    find (fun x => (id x =? id (with_notificationId sample_reminder
                                    (Some "h7"%string)))%string)
         (others ++ [with_notificationId sample_reminder (Some "h7"%string)])
      = Some (with_notificationId sample_reminder (Some "h7"%string)) /\
    filter (fun x => (id x =? id (with_notificationId sample_reminder
                                      (Some "h7"%string)))%string)
           (others ++ [with_notificationId sample_reminder (Some "h7"%string)])
      = [with_notificationId sample_reminder (Some "h7"%string)].
Proof.
  apply saveReminder_then_getReminders.
  intros n c; destruct c; simpl; reflexivity || exact I.
Defined.

(** X2.  Saving a reminder keeps every entry of another id, in the order
    they had, and saving the same reminder a second time changes nothing. *)
Theorem saveReminder_keeps_others_and_is_idempotent env r w :
  storage_ok env ->
  let w1 := snd (saveReminder env r w) in
  filter (fun x => negb (id x =? id r)%string) (stored_reminders w1)
    = filter (fun x => negb (id x =? id r)%string) (stored_reminders w) /\
  medication_reminders (snd (saveReminder env r w1)) = medication_reminders w1.
Proof.
  intros Hs w1. subst w1.
  assert (Hf : filter (fun x => negb (id x =? id r)%string)
                      (stored_reminders (snd (saveReminder env r w)))
               = filter (fun x => negb (id x =? id r)%string)
                        (stored_reminders w)).
  { rewrite (stored_after_save env r w Hs), filter_app, filter_twice. simpl.
    rewrite String.eqb_refl. simpl. apply app_nil_r. }
  split; [exact Hf|].
  rewrite (saveReminder_storage_ok env r _ Hs), Hf.
  now rewrite (saveReminder_storage_ok env r w Hs).
Qed.

Lemma saveReminder_keeps_others_and_is_idempotent_witness :
  let r := with_notificationId sample_reminder (Some "h7"%string) in
  let w := mkWorld Absent
             (Json [sample_reminder;
                    mkReminder "r2" "m2" "Zinc" "5mg" "20:00" [0] true None])
             [] [] true None in
  let w1 := snd (saveReminder (steady "h") r w) in
  filter (fun x => negb (id x =? id r)%string) (stored_reminders w1)
    = filter (fun x => negb (id x =? id r)%string) (stored_reminders w) /\
  medication_reminders (snd (saveReminder (steady "h") r w1))
    = medication_reminders w1.
Proof.
  intros r w.
  apply saveReminder_keeps_others_and_is_idempotent.
  intros n c; destruct c; simpl; reflexivity || exact I.
Defined.

(** X3.  Deleting is idempotent and undoes a save: on a store that
    answers, after [deleteReminder] no entry has the id; a second
    [deleteReminder] of the same id leaves the collection as it is and
    cancels nothing; and deleting a reminder that was just saved leaves
    the entries of the other ids that were there before the save. *)
Theorem deleteReminder_idempotent_and_undoes_save env r i w :
  storage_ok env ->
  let w1 := snd (deleteReminder env i w) in
  let w2 := snd (deleteReminder env i w1) in
  ~ In i (map id (stored_reminders w1)) /\
  medication_reminders w2 = medication_reminders w1 /\
  cancels (calls_since w1 w2) = [] /\
  stored_reminders (snd (deleteReminder env (id r) (snd (saveReminder env r w))))
    = filter (fun x => negb (id x =? id r)%string) (stored_reminders w).
Proof.
  intros Hs w1 w2. subst w1 w2. split; [|split; [|split]].
  - rewrite (stored_after_delete env i w Hs). apply filter_removes_id.
  - rewrite (deleteReminder_storage_ok env i _ Hs).
    rewrite (stored_after_delete env i w Hs), filter_twice.
    now rewrite (deleteReminder_storage_ok env i w Hs).
  - destruct (deleteReminder_run env i (snd (deleteReminder env i w)))
      as [_ [Hc _]].
    rewrite (calls_since_ext _ _ _ Hc).
    rewrite (listed_stored env _ Hs), (stored_after_delete env i w Hs).
    rewrite (find_other_ids i _ (filter_removes_id i (stored_reminders w))).
    reflexivity.
  - rewrite (stored_after_delete env (id r) _ Hs).
    rewrite (stored_after_save env r w Hs), filter_app, filter_twice. simpl.
    rewrite String.eqb_refl. simpl. apply app_nil_r.
Qed.

Lemma deleteReminder_idempotent_and_undoes_save_witness :
  let r := with_notificationId sample_reminder (Some "h7"%string) in
  let w := mkWorld Absent
             (Json [sample_reminder;
                    mkReminder "r2" "m2" "Zinc" "5mg" "20:00" [0] true None])
             [] [] true None in
  let w1 := snd (deleteReminder (steady "h") "r2" w) in
  let w2 := snd (deleteReminder (steady "h") "r2" w1) in
  ~ In "r2"%string (map id (stored_reminders w1)) /\
  medication_reminders w2 = medication_reminders w1 /\
  cancels (calls_since w1 w2) = [] /\
  stored_reminders
    (snd (deleteReminder (steady "h") (id r)
            (snd (saveReminder (steady "h") r w))))
    = filter (fun x => negb (id x =? id r)%string) (stored_reminders w).
Proof.
  intros r w.
  apply deleteReminder_idempotent_and_undoes_save.
  intros n c; destruct c; simpl; reflexivity || exact I.
Defined.

(** X4.  A failed read is taken for an empty collection and written over:
    when the read of the reminders is rejected, or the stored text does
    not parse, and the write that follows is accepted, [saveReminder]
    leaves the store with the one reminder and [deleteReminder] leaves it
    empty, whatever it held. *)
Theorem unreadable_collection_is_overwritten env r i w :
  rejects env (length (calls w)) (GetItem "medication_reminders") = true \/
  medication_reminders w = Corrupt ->
  (forall v, rejects env (S (length (calls w)))
                     (SetItem "medication_reminders" v) = false) ->
  medication_reminders (snd (saveReminder env r w)) = Json [r] /\
  medication_reminders (snd (deleteReminder env i w)) = Json [].
Proof.
  intros Hread Hwrite.
  assert (Hl : length (calls w ++ [GetItem "medication_reminders"])
               = S (length (calls w))).
  { rewrite length_app. simpl. lia. }
  split.
  - unfold saveReminder, getReminders. unfold_monad. simpl.
    destruct Hread as [H|H].
    + rewrite H. simpl. rewrite Hl. rewrite Hwrite. reflexivity.
    + case_reject; simpl; rewrite ?H; simpl; rewrite Hl;
        rewrite Hwrite; reflexivity.
  - unfold deleteReminder, getReminders. unfold_monad. simpl.
    destruct Hread as [H|H].
    + rewrite H. simpl. rewrite Hl. rewrite Hwrite. reflexivity.
    + case_reject; simpl; rewrite ?H; simpl; rewrite Hl;
        rewrite Hwrite; reflexivity.
Qed.

Lemma unreadable_collection_is_overwritten_witness :
  let w := mkWorld Absent
             (Json [sample_reminder;
                    mkReminder "r2" "m2" "Zinc" "5mg" "20:00" [0] true None])
             [] [] true None in
  medication_reminders
    (snd (saveReminder unreadable
            (mkReminder "r3" "m1" "Aspirin" "100mg" "12:00" [2] true None) w))
    = Json [mkReminder "r3" "m1" "Aspirin" "100mg" "12:00" [2] true None] /\
  medication_reminders (snd (deleteReminder unreadable "r9" w)) = Json [].
Proof.
  intros w.
  apply unreadable_collection_is_overwritten.
  - left. reflexivity.
  - intros v. reflexivity.
Defined.

(** ** Scheduling, on a platform that answers *)

Lemma schedule_days_first env r h m d ds w ids :
  rejects env (length (calls w))
          (ScheduleNotification (weekly_request r h m d)) = false ->
  fst (schedule_days env r h m (d :: ds) [] w) = Returned ids ->
  nth_error ids 0 = Some (reply env (length (calls w))).
Proof.
  intros Hrej. simpl. unfold scheduleNotificationAsync, invoke, bind.
  rewrite Hrej. intros Hret.
  pose proof (schedule_days_run env r h m ds [reply env (length (calls w))]
                (issue (ScheduleNotification (weekly_request r h m d)) w))
    as H.
  cbv zeta in H. destruct H as [_ [k [_ Ho]]].
  rewrite Hret in Ho. destruct Ho as [_ [new [-> _]]]. reflexivity.
Qed.

(** The run of [scheduleReminder] on an enabled reminder when the store
    and the scheduler answer. *)
Lemma scheduleReminder_ok env r w :
  storage_ok env -> scheduler_ok env -> enabled r = true ->
  exists ids,
    length ids = length (days r) /\
    (forall d ds, days r = d :: ds ->
       nth_error ids 0
       = Some (reply env (length (calls w) + length (prior_cancel r)))) /\
    fst (scheduleReminder env r w) = Returned (answer_of (nth_error ids 0)) /\
    medication_reminders (snd (scheduleReminder env r w))
    = Json (filter (fun x => negb (id x =? id r)%string) (stored_reminders w)
              ++ [with_notificationId r (nth_error ids 0)]) /\
    calls_since w (snd (scheduleReminder env r w))
    = prior_cancel r
        ++ weekly_calls r (parsed_hours r) (parsed_minutes r) (days r)
        ++ [GetItem "medication_reminders";
            SetItem "medication_reminders"
              (RemindersJson
                 (filter (fun x => negb (id x =? id r)%string)
                         (stored_reminders w)
                    ++ [with_notificationId r (nth_error ids 0)]))].
Proof.
  intros Hs Hr He. rewrite (scheduleReminder_enabled env r He).
  match goal with
  | |- context [try_catch ?b ?h w] =>
      destruct (try_catch b h w) as [o w'] eqn:E
  end.
  cbn [fst snd]. unfold try_catch in E. unfold bind at 1 in E.
  destruct (cancel_prior_run env r w) as [Ho1 [Hc1 [Hm1 Hr1]]].
  destruct (cancel_prior env r w) as [o1 w1].
  cbn [fst snd] in Ho1, Hc1, Hm1, Hr1. subst o1.
  unfold bind at 1 in E.
  destruct (schedule_days_returns env r (parsed_hours r) (parsed_minutes r)
              (days r) Hr [] w1) as [ids Hids].
  pose proof (schedule_days_run env r (parsed_hours r) (parsed_minutes r)
                (days r) [] w1) as H2.
  cbv zeta in H2. destruct H2 as [[Hm2 Hr2] [k [Hc2 Ho2]]].
  rewrite Hids in Ho2. destruct Ho2 as [Hk [new [Hi Hl]]].
  cbn [app] in Hi. subst new.
  assert (Hfirst : forall d ds, days r = d :: ds ->
            nth_error ids 0
            = Some (reply env (length (calls w) + length (prior_cancel r)))).
  { intros d ds Hd. rewrite Hd in Hids.
    rewrite <- length_app, <- Hc1.
    exact (schedule_days_first env r _ _ d ds w1 ids (Hr _ _) Hids). }
  destruct (schedule_days env r (parsed_hours r) (parsed_minutes r)
              (days r) [] w1) as [o2 w2].
  cbn [fst snd] in Hm2, Hr2, Hc2, Hids. subst o2.
  pose proof (saveReminder_run env
                (with_notificationId r (nth_error ids 0)) w2) as H3.
  pose proof (saveReminder_storage_ok env
                (with_notificationId r (nth_error ids 0)) w2 Hs) as H4.
  cbv zeta in H3. destruct H3 as [Ho3 [Hc3 _]].
  rewrite (listed_stored env w2 Hs) in Hc3.
  assert (Hst : stored_reminders w2 = stored_reminders w).
  { unfold stored_reminders. rewrite Hr2, Hr1. reflexivity. }
  rewrite Hst in Hc3, H4.
  unfold bind at 1 in E.
  destruct (saveReminder env (with_notificationId r (nth_error ids 0)) w2)
    as [o3 w3].
  cbn [fst snd] in Ho3, Hc3, H4. subst o3. unfold ret in E.
  injection E as <- <-.
  exists ids. split; [exact Hl|]. split; [exact Hfirst|].
  split; [reflexivity|]. split; [exact H4|].
  apply calls_since_ext. rewrite Hc3, Hc2, Hc1, Hk.
  rewrite <- !app_assoc. reflexivity.
Qed.

Lemma length_registered_weekly r h m ds :
  length (registered (weekly_calls r h m ds)) = length ds.
Proof. rewrite registered_weekly_calls. apply length_map. Qed.

(** X5.  On a platform whose store and scheduler answer, an enabled
    reminder with at least one day is answered with the handle of its
    first registration (the one the scheduler gave for the first day), and
    the store then holds the reminder with that handle as its last entry,
    after the entries of the other ids. *)
Theorem scheduleReminder_answers_and_saves_first_handle env r w d ds :
  storage_ok env -> scheduler_ok env ->
  enabled r = true -> days r = d :: ds ->
  let h := reply env (length (calls w) + length (prior_cancel r)) in
  fst (scheduleReminder env r w) = Returned (JValue h) /\
  medication_reminders (snd (scheduleReminder env r w))
  = Json (filter (fun x => negb (id x =? id r)%string) (stored_reminders w)
            ++ [with_notificationId r (Some h)]).
Proof.
  intros Hs Hr He Hd h.
  destruct (scheduleReminder_ok env r w Hs Hr He)
    as [ids [_ [Hfirst [Ho [Hm _]]]]].
  rewrite (Hfirst d ds Hd) in Ho, Hm. split; assumption.
Qed.

Lemma scheduleReminder_answers_and_saves_first_handle_witness :
  let w := mkWorld Absent
             (Json [mkReminder "r2" "m2" "Zinc" "5mg" "20:00" [0] true None])
             [] [] true None in
  let h := reply numbering
                 (length (calls w) + length (prior_cancel sample_reminder)) in
  fst (scheduleReminder numbering sample_reminder w) = Returned (JValue h) /\
  medication_reminders (snd (scheduleReminder numbering sample_reminder w))
  = Json (filter (fun x => negb (id x =? id sample_reminder)%string)
                 (stored_reminders w)
            ++ [with_notificationId sample_reminder (Some h)]).
Proof.
  intros w.
  apply (scheduleReminder_answers_and_saves_first_handle
           numbering sample_reminder w 1 [3; 5]).
  - intros n c; destruct c; simpl; reflexivity || exact I.
  - intros n c; reflexivity.
  - reflexivity.
  - reflexivity.
Defined.

(** X6.  An enabled reminder is answered with [null] only when a
    registration was rejected, and then nothing was saved: the calls of
    the run are the cancellation of the old handle and the registrations
    of the first days, which are not taken back, and the persisted
    collection is what it was. *)
Theorem scheduleReminder_null_means_not_saved env r w :
  enabled r = true ->
  fst (scheduleReminder env r w) = Returned JNull ->
  (exists k,
      calls_since w (snd (scheduleReminder env r w))
      = prior_cancel r
          ++ weekly_calls r (parsed_hours r) (parsed_minutes r)
               (firstn k (days r))) /\
  writes (calls_since w (snd (scheduleReminder env r w))) = [] /\
  medication_reminders (snd (scheduleReminder env r w))
    = medication_reminders w.
Proof.
  intros He Hnull.
  destruct (scheduleReminder_run env r w He) as [k [tail [Hc [_ Hend]]]].
  destruct Hend as [_ _ Ht Hr | ids existing _ _ _ Ho _ _].
  - subst tail. rewrite app_nil_r in Hc.
    rewrite (calls_since_ext _ _ _ Hc). split; [now exists k|].
    split; [|exact Hr]. rewrite writes_app, writes_weekly_calls.
    unfold prior_cancel. destruct (notificationId r) as [h|]; auto.
    destruct (truthy h); auto.
  - rewrite Ho in Hnull. destruct (nth_error ids 0); discriminate Hnull.
Qed.

Lemma scheduleReminder_null_means_not_saved_witness :
  (exists k,
      calls_since empty_world
        (snd (scheduleReminder (scheduler_dies_after 2) sample_reminder
                empty_world))
      = prior_cancel sample_reminder
          ++ weekly_calls sample_reminder (parsed_hours sample_reminder)
               (parsed_minutes sample_reminder)
               (firstn k (days sample_reminder))) /\
  writes (calls_since empty_world
            (snd (scheduleReminder (scheduler_dies_after 2) sample_reminder
                    empty_world))) = [] /\
  medication_reminders
    (snd (scheduleReminder (scheduler_dies_after 2) sample_reminder
            empty_world))
    = medication_reminders empty_world.
Proof.
  apply scheduleReminder_null_means_not_saved; reflexivity.
Defined.

Example two_registrations_stay_after_a_rejected_third :
  registered
    (calls (snd (scheduleReminder (scheduler_dies_after 2) sample_reminder
                   empty_world)))
  = [WeeklyTrigger 2 (Some (Num 9)) (Some (Num 0)) true;
     WeeklyTrigger 4 (Some (Num 9)) (Some (Num 0)) true;
     WeeklyTrigger 6 (Some (Num 9)) (Some (Num 0)) true]
  /\ cancels
       (calls (snd (scheduleReminder (scheduler_dies_after 2) sample_reminder
                      empty_world))) = [].
Proof. split; reflexivity. Qed.

(** X7.  Only the first of the handles is ever cancelled.  On a platform
    that rejects nothing, scheduling an enabled reminder of [k] days makes
    [k] registrations, and deleting the reminder afterwards issues one
    cancellation, for the handle of the first of them, and removes the
    entry; the other [k - 1] registrations get no cancellation. *)
Theorem delete_after_schedule_cancels_first_handle_only env r w d ds :
  healthy env -> enabled r = true -> days r = d :: ds ->
  let h := reply env (length (calls w) + length (prior_cancel r)) in
  h <> ""%string ->
  let w1 := snd (scheduleReminder env r w) in
  let w2 := snd (deleteReminder env (id r) w1) in
  length (registered (calls_since w w1)) = S (length ds) /\
  cancels (calls_since w1 w2) = [h] /\
  ~ In (id r) (map id (stored_reminders w2)).
Proof.
  intros Hh He Hd h Hne w1 w2. subst w1 w2.
  pose proof (healthy_storage_ok env Hh) as Hs.
  pose proof (healthy_scheduler_ok env Hh) as Hr.
  destruct (scheduleReminder_ok env r w Hs Hr He)
    as [ids [_ [Hfirst [_ [Hm Hc]]]]].
  rewrite (Hfirst d ds Hd) in Hm. fold h in Hm.
  split; [|split].
  - rewrite Hc, !registered_app, registered_prior_cancel.
    rewrite !length_app, length_registered_weekly, Hd. simpl. lia.
  - destruct (deleteReminder_run env (id r) (snd (scheduleReminder env r w)))
      as [_ [Hc2 _]].
    rewrite (calls_since_ext _ _ _ Hc2). rewrite (listed_stored env _ Hs).
    unfold stored_reminders at 1. rewrite Hm.
    rewrite (find_after_others (id r) _ (with_notificationId r (Some h))
               eq_refl).
    unfold prior_cancel. simpl. unfold truthy.
    apply String.eqb_neq in Hne. rewrite Hne. reflexivity.
  - rewrite (stored_after_delete env (id r) _ Hs). apply filter_removes_id.
Qed.

Lemma delete_after_schedule_cancels_first_handle_only_witness :
  let w1 := snd (scheduleReminder numbering sample_reminder empty_world) in
  let w2 := snd (deleteReminder numbering (id sample_reminder) w1) in
  length (registered (calls_since empty_world w1)) = S (length [3; 5]) /\
  cancels (calls_since w1 w2) = ["h0"%string] /\
  ~ In (id sample_reminder) (map id (stored_reminders w2)).
Proof.
  apply (delete_after_schedule_cancels_first_handle_only
           numbering sample_reminder empty_world 1 [3; 5]).
  - intros n c; reflexivity.
  - reflexivity.
  - reflexivity.
  - discriminate.
Defined.

Lemma split_without_separator sep s :
  has_char sep s = false -> split sep s = [s].
Proof.
  induction s as [|c s IH]; simpl; [reflexivity|].
  intros H. apply orb_false_iff in H. destruct H as [Hc Hs].
  rewrite Hc, (IH Hs). reflexivity.
Qed.

(** X8.  The time is not validated.  For an enabled reminder whose time
    has no colon, on a scheduler that accepts requests, every day is
    still registered, with the whole text converted to a number as the
    hour and with no minute at all ([undefined]). *)
Theorem scheduleReminder_time_without_colon env r w :
  scheduler_ok env -> enabled r = true ->
  has_char ":" (scheduledTime r) = false ->
  registered (calls_since w (snd (scheduleReminder env r w)))
  = map (fun d => WeeklyTrigger (if d =? 0 then 1 else d + 1)
                                (Some (Number (scheduledTime r))) None true)
        (days r).
Proof.
  intros Hr He Hc. rewrite (scheduleReminder_registered env r w Hr He).
  unfold parsed_hours, parsed_minutes.
  rewrite (split_without_separator _ _ Hc). reflexivity.
Qed.

Lemma scheduleReminder_time_without_colon_witness :
  registered
    (calls_since empty_world
       (snd (scheduleReminder (steady "h")
               (mkReminder "r1" "m1" "Aspirin" "100mg" "0900" [1; 3] true None)
               empty_world)))
  = map (fun d => WeeklyTrigger (if d =? 0 then 1 else d + 1)
                                (Some (Number "0900")) None true)
        [1; 3].
Proof.
  apply (scheduleReminder_time_without_colon (steady "h")
           (mkReminder "r1" "m1" "Aspirin" "100mg" "0900" [1; 3] true None)
           empty_world).
  - intros n c; reflexivity.
  - reflexivity.
  - reflexivity.
Defined.

(** ** Acknowledgements, whatever the platform answers *)

Lemma mark_taken_id env i m : med_id (mark_taken env i m) = med_id m.
Proof. unfold mark_taken. destruct (med_id m =? i)%string; reflexivity. Qed.

Lemma mark_taken_range env i m :
  0 <= adherence m <= 100 ->
  0 <= adherence (mark_taken env i m) <= 100 /\
  adherence m <= adherence (mark_taken env i m).
Proof.
  unfold mark_taken. destruct (med_id m =? i)%string; simpl; lia.
Qed.

(** The two ways a run of [handleMedicationTaken] ends: nothing changed
    in the medications and no notification was sent, or the collection
    was readable and is now the updated one. *)
Lemma handleMedicationTaken_cases env i t w :
  let w' := snd (handleMedicationTaken env i t w) in
  (medications w' = medications w /\ immediate (calls_since w w') = []) \/
  (exists meds, medications w = Json meds /\
                medications w' = Json (map (mark_taken env i) meds)).
Proof.
  cbv zeta. unfold handleMedicationTaken, showLocalNotification.
  unfold_monad. simpl. case_reject; simpl.
  - left. split; [reflexivity|].
    erewrite calls_since_ext by (simpl; reflexivity). reflexivity.
  - destruct (medications w) as [| |meds] eqn:Hm; simpl.
    + left. rewrite Hm. split; [reflexivity|].
      erewrite calls_since_ext by (simpl; reflexivity). reflexivity.
    + left. rewrite Hm. split; [reflexivity|].
      erewrite calls_since_ext by (simpl; reflexivity). reflexivity.
    + case_reject; simpl.
      * left. rewrite Hm. split; [reflexivity|].
        erewrite calls_since_ext
          by (simpl; rewrite <- !app_assoc; reflexivity).
        reflexivity.
      * right. exists meds. split; [reflexivity|].
        case_reject; reflexivity.
Qed.

(** X9.  The adherence scores stay in range.  Whatever the platform
    answers, an acknowledgement on a collection whose scores are all in
    0..100 leaves a collection with the same ids in the same order, whose
    scores are all in 0..100, none lower than before. *)
Theorem handleMedicationTaken_keeps_scores_in_range env medicationId reminderTime w meds :
  medications w = Json meds ->
  Forall (fun m => 0 <= adherence m <= 100) meds ->
  exists meds',
    medications (snd (handleMedicationTaken env medicationId reminderTime w))
      = Json meds' /\
    map med_id meds' = map med_id meds /\
    Forall (fun m => 0 <= adherence m <= 100) meds' /\
    Forall2 (fun m m' => adherence m <= adherence m') meds meds'.
Proof.
  intros Hm Hrange.
  destruct (handleMedicationTaken_cases env medicationId reminderTime w)
    as [[H _]|[meds0 [H0 H]]].
  - exists meds. rewrite H. split; [exact Hm|]. split; [reflexivity|].
    split; [exact Hrange|].
    clear. induction meds; constructor; auto; lia.
  - rewrite Hm in H0. injection H0 as <-.
    exists (map (mark_taken env medicationId) meds). split; [exact H|].
    split; [rewrite map_map; apply map_ext; intros; apply mark_taken_id|].
    split.
    + rewrite Forall_map. eapply Forall_impl; [|exact Hrange].
      intros m Hr. simpl. apply (mark_taken_range env medicationId m Hr).
    + clear Hm H. induction Hrange as [|m l Hr _ IH]; simpl; constructor; auto.
      apply (mark_taken_range env medicationId m Hr).
Qed.

Lemma handleMedicationTaken_keeps_scores_in_range_witness :
  exists meds',
    medications
      (snd (handleMedicationTaken read_only "m1" "09:00"
              (mkWorld (Json [mkMedication "m1" "Aspirin" "100mg" "daily"
                                           ["09:00"] None 99 true "#E91E63"])
                       Absent [] [] true None)))
      = Json meds' /\
    map med_id meds'
      = map med_id [mkMedication "m1" "Aspirin" "100mg" "daily" ["09:00"]
                                 None 99 true "#E91E63"] /\
    Forall (fun m => 0 <= adherence m <= 100) meds' /\
    Forall2 (fun m m' => adherence m <= adherence m')
            [mkMedication "m1" "Aspirin" "100mg" "daily" ["09:00"] None 99
                          true "#E91E63"]
            meds'.
Proof.
  apply handleMedicationTaken_keeps_scores_in_range.
  - reflexivity.
  - repeat constructor; simpl; lia.
Defined.

(** A run of [handleMedicationTaken] that sends a notification has read
    the collection and had its write of the updated collection accepted. *)
Lemma handleMedicationTaken_notice env i t w :
  immediate (calls_since w (snd (handleMedicationTaken env i t w))) <> [] ->
  exists meds,
    medications w = Json meds /\
    rejects env (S (length (calls w)))
            (SetItem "medications"
                     (MedicationsJson (map (mark_taken env i) meds))) = false /\
    writes (calls_since w (snd (handleMedicationTaken env i t w)))
      = [MedicationsJson (map (mark_taken env i) meds)] /\
    medications (snd (handleMedicationTaken env i t w))
      = Json (map (mark_taken env i) meds).
Proof.
  unfold handleMedicationTaken, showLocalNotification.
  assert (Hl : length (calls w ++ [GetItem "medications"])
               = S (length (calls w))).
  { rewrite length_app. simpl. lia. }
  unfold_monad. simpl. case_reject; simpl.
  - erewrite calls_since_ext by (simpl; reflexivity). intros H. now elim H.
  - destruct (medications w) as [| |meds] eqn:Hm; simpl.
    + erewrite calls_since_ext by (simpl; reflexivity). intros H. now elim H.
    + erewrite calls_since_ext by (simpl; reflexivity). intros H. now elim H.
    + rewrite Hl. case_reject; simpl.
      * erewrite calls_since_ext
          by (simpl; rewrite <- !app_assoc; reflexivity).
        intros H. now elim H.
      * intros _. exists meds. split; [reflexivity|]. split; [assumption|].
        case_reject; simpl;
          (erewrite calls_since_ext
             by (simpl; rewrite <- !app_assoc; reflexivity));
          split; reflexivity.
Qed.

(** X10.  The "Dose Recorded" notification is sent only after the updated
    collection was written.  Whatever the platform answers, when a run of
    [handleMedicationTaken] sends it, the collection was readable, the
    one write of the run carried the updated collection and was accepted,
    and the store holds that collection: every record of the id has the
    current time as [lastTaken] and its adherence raised by 2 up to 100,
    and every other record is as it was.  (There may be no record of the
    id: the notification is sent for an unknown id as well, after the
    collection was written back as it was read.) *)
Theorem dose_recorded_notice_only_after_write env medicationId reminderTime w :
  immediate
    (calls_since w (snd (handleMedicationTaken env medicationId reminderTime w)))
    <> [] ->
  exists meds meds',
    medications w = Json meds /\
    writes
      (calls_since w
         (snd (handleMedicationTaken env medicationId reminderTime w)))
      = [MedicationsJson meds'] /\
    rejects env (S (length (calls w)))
            (SetItem "medications" (MedicationsJson meds')) = false /\
    medications (snd (handleMedicationTaken env medicationId reminderTime w))
      = Json meds' /\
    Forall2 (fun m m' => if (med_id m =? medicationId)%string
                         then dose_recorded env m m' else m' = m)
            meds meds'.
Proof.
  intros Hn.
  destruct (handleMedicationTaken_notice env medicationId reminderTime w Hn)
    as [meds [Hm [Hacc [Hw Hs]]]].
  exists meds, (map (mark_taken env medicationId) meds).
  repeat (split; [assumption|]). apply map_mark_taken_rel.
Qed.

Lemma dose_recorded_notice_only_after_write_witness :
  let w := mkWorld (Json [mkMedication "m1" "Aspirin" "100mg" "daily"
                                       ["09:00"] None 90 true "#E91E63"])
                   Absent [] [] true None in
  exists meds meds',
    medications w = Json meds /\
    writes (calls_since w (snd (handleMedicationTaken (steady "h") "m1" "09:00" w)))
      = [MedicationsJson meds'] /\
    rejects (steady "h") (S (length (calls w)))
            (SetItem "medications" (MedicationsJson meds')) = false /\
    medications (snd (handleMedicationTaken (steady "h") "m1" "09:00" w))
      = Json meds' /\
    Forall2 (fun m m' => if (med_id m =? "m1")%string
                         then dose_recorded (steady "h") m m' else m' = m)
            meds meds'.
Proof.
  intros w.
  apply (dose_recorded_notice_only_after_write (steady "h") "m1" "09:00").
  vm_compute. discriminate.
Defined.

(** X11.  With nothing readable in the store there is nothing to
    acknowledge: when the medications are absent, or their text does not
    parse, a run of [handleMedicationTaken] makes the one read and nothing
    else, no write and no notification, and returns, whatever the
    platform answers. *)
Theorem handleMedicationTaken_without_collection env medicationId reminderTime w :
  medications w = Absent \/ medications w = Corrupt ->
  fst (handleMedicationTaken env medicationId reminderTime w) = Returned tt /\
  calls_since w (snd (handleMedicationTaken env medicationId reminderTime w))
    = [GetItem "medications"] /\
  same_stores w (snd (handleMedicationTaken env medicationId reminderTime w)).
Proof.
  intros H. unfold handleMedicationTaken. unfold_monad. simpl.
  case_reject; simpl.
  - erewrite calls_since_ext by (simpl; reflexivity).
    repeat split; reflexivity.
  - destruct H as [H|H]; rewrite H; simpl;
      (erewrite calls_since_ext by (simpl; reflexivity));
      repeat split; auto.
Qed.

Lemma handleMedicationTaken_without_collection_witness :
  fst (handleMedicationTaken (steady "h") "m1" "09:00"
         (mkWorld Corrupt Absent [] [] true None)) = Returned tt /\
  calls_since (mkWorld Corrupt Absent [] [] true None)
    (snd (handleMedicationTaken (steady "h") "m1" "09:00"
            (mkWorld Corrupt Absent [] [] true None)))
    = [GetItem "medications"] /\
  same_stores (mkWorld Corrupt Absent [] [] true None)
    (snd (handleMedicationTaken (steady "h") "m1" "09:00"
            (mkWorld Corrupt Absent [] [] true None))).
Proof.
  apply handleMedicationTaken_without_collection. right. reflexivity.
Defined.

Lemma acknowledged_step env i t n w :
  acknowledged env i t (S n) w
  = acknowledged env i t n (snd (handleMedicationTaken env i t w)).
Proof. reflexivity. Qed.

Lemma mark_taken_again env i k m :
  0 < k ->
  (if (med_id (mark_taken env i m) =? i)%string
   then with_taken (mark_taken env i m) (now env)
                   (Z.min 100 (adherence (mark_taken env i m) + 2 * k))
   else mark_taken env i m)
  = (if (med_id m =? i)%string
     then with_taken m (now env) (Z.min 100 (adherence m + 2 * (k + 1)))
     else m).
Proof.
  intros Hk. rewrite mark_taken_id. unfold mark_taken.
  destruct (med_id m =? i)%string; [|reflexivity].
  unfold with_taken.
  cbn [med_id med_name med_dosage frequency times lastTaken adherence
       reminderEnabled color].
  f_equal. lia.
Qed.

(** X12.  Acknowledgements add up until the score is full: on a store
    that answers, after [n + 1] acknowledgements of one medication every
    record of that id has the score [min(100, score + 2 (n + 1))] and the
    current time as [lastTaken], and the other records are as they were. *)
Theorem repeated_acknowledgements_saturate env medicationId reminderTime n :
  storage_ok env ->
  forall w meds,
    medications w = Json meds ->
    medications (acknowledged env medicationId reminderTime (S n) w)
    = Json (map (fun m =>
                   if (med_id m =? medicationId)%string
                   then with_taken m (now env)
                          (Z.min 100 (adherence m + 2 * Z.of_nat (S n)))
                   else m)
                meds).
Proof.
  intros Hs. induction n as [|n IH]; intros w meds Hm.
  - simpl acknowledged.
    destruct (handleMedicationTaken_run env medicationId reminderTime w meds
                Hs Hm) as [H _].
    rewrite H. reflexivity.
  - rewrite acknowledged_step.
    destruct (handleMedicationTaken_run env medicationId reminderTime w meds
                Hs Hm) as [H _].
    rewrite (IH _ _ H). rewrite map_map. f_equal. apply map_ext. intros m.
    rewrite (mark_taken_again env medicationId (Z.of_nat (S n)) m) by lia.
    destruct (med_id m =? medicationId)%string; [|reflexivity].
    f_equal. lia.
Qed.

Lemma repeated_acknowledgements_saturate_witness :
  medications
    (acknowledged (steady "h") "m1" "09:00" 3
       (mkWorld (Json [mkMedication "m1" "Aspirin" "100mg" "daily" ["09:00"]
                                    None 97 true "#E91E63"])
                Absent [] [] true None))
  = Json (map (fun m =>
                 if (med_id m =? "m1")%string
                 then with_taken m (now (steady "h"))
                        (Z.min 100 (adherence m + 2 * Z.of_nat 3))
                 else m)
              [mkMedication "m1" "Aspirin" "100mg" "daily" ["09:00"] None 97
                            true "#E91E63"]).
Proof.
  apply (repeated_acknowledgements_saturate (steady "h") "m1" "09:00" 2).
  - intros n c; destruct c; simpl; reflexivity || exact I.
  - reflexivity.
Defined.

(** ** Snoozing, whatever the platform answers *)

(** The calls a run of [handleSnoozeReminder] can make: the read alone;
    the read and the registration; or the read, the registration, which
    was accepted, and the confirmation. *)
Lemma handleSnoozeReminder_cases env i t w :
  let w' := snd (handleSnoozeReminder env i t w) in
  fst (handleSnoozeReminder env i t w) = Returned tt /\
  same_stores w w' /\
  (calls_since w w' = [GetItem "medications"] \/
   exists name,
     (calls_since w w'
      = [GetItem "medications";
         ScheduleNotification (snooze_request i t name)] \/
      rejects env (S (length (calls w)))
              (ScheduleNotification (snooze_request i t name)) = false /\
      calls_since w w'
      = [GetItem "medications";
         ScheduleNotification (snooze_request i t name);
         ScheduleNotification
           (mkRequest
              (mkContent "Reminder Snoozed"
                         "We'll remind you again in 15 minutes"
                         (mkData None None (Some "confirmation"))
                         true None None)
              None)])).
Proof.
  cbv zeta. unfold handleSnoozeReminder, showLocalNotification.
  assert (Hl : length (calls w ++ [GetItem "medications"])
               = S (length (calls w))).
  { rewrite length_app. simpl. lia. }
  unfold_monad. simpl. case_reject; simpl.
  - erewrite calls_since_ext by (simpl; reflexivity).
    repeat split; auto.
  - destruct (medications w) as [| |meds] eqn:Hm; simpl.
    + rewrite Hl. case_reject; simpl.
      * erewrite calls_since_ext
          by (simpl; rewrite <- !app_assoc; reflexivity).
        repeat split; auto. right. eexists. left. reflexivity.
      * case_reject; simpl;
          (erewrite calls_since_ext
             by (simpl; rewrite <- !app_assoc; reflexivity));
          repeat split; auto; right; eexists; right; split;
            try eassumption; reflexivity.
    + erewrite calls_since_ext by (simpl; reflexivity).
      repeat split; auto.
    + destruct (find _ meds); simpl; rewrite Hl; case_reject; simpl;
        try (case_reject; simpl);
        (erewrite calls_since_ext
           by (simpl; rewrite <- !app_assoc; reflexivity));
        repeat split; auto; right; eexists;
          (left; reflexivity) ||
          (right; split; try eassumption; reflexivity).
Qed.

(** X13.  A snooze never writes, and it confirms only what it registered:
    whatever the platform answers, [handleSnoozeReminder] returns, hands
    nothing to the store and leaves both collections as they were; it
    asks for at most one registration; and when it sends the "Reminder
    Snoozed" notification, the registration of the 900-second trigger was
    made and accepted. *)
Theorem handleSnoozeReminder_never_writes env medicationId reminderTime w :
  let w' := snd (handleSnoozeReminder env medicationId reminderTime w) in
  fst (handleSnoozeReminder env medicationId reminderTime w) = Returned tt /\
  writes (calls_since w w') = [] /\
  same_stores w w' /\
  (length (registered (calls_since w w')) <= 1)%nat /\
  (immediate (calls_since w w') <> [] ->
   registered (calls_since w w') = [TimeIntervalTrigger 900 false] /\
   exists name,
     rejects env (S (length (calls w)))
             (ScheduleNotification
                (snooze_request medicationId reminderTime name)) = false).
Proof.
  cbv zeta.
  destruct (handleSnoozeReminder_cases env medicationId reminderTime w)
    as [Ho [Hs [Hc|[name [Hc|[Hacc Hc]]]]]]; rewrite Hc; simpl.
  - split; [exact Ho|]. split; [reflexivity|]. split; [exact Hs|].
    split; [lia|]. intros H. now elim H.
  - split; [exact Ho|]. split; [reflexivity|]. split; [exact Hs|].
    split; [lia|]. intros H. now elim H.
  - split; [exact Ho|]. split; [reflexivity|]. split; [exact Hs|].
    split; [lia|]. intros _. split; [reflexivity|]. now exists name.
Qed.

(** X14.  A snooze is lost when the medications cannot be read: the name
    is looked up before the registration, so when the read is rejected or
    the stored text does not parse, no trigger is registered and no
    notification is sent; the run still returns. *)
Theorem handleSnoozeReminder_lost_without_readable_store
    env medicationId reminderTime w :
  rejects env (length (calls w)) (GetItem "medications") = true \/
  medications w = Corrupt ->
  fst (handleSnoozeReminder env medicationId reminderTime w) = Returned tt /\
  registered
    (calls_since w (snd (handleSnoozeReminder env medicationId reminderTime w)))
    = [] /\
  immediate
    (calls_since w (snd (handleSnoozeReminder env medicationId reminderTime w)))
    = [].
Proof.
  intros H. unfold handleSnoozeReminder. unfold_monad. simpl.
  destruct H as [H|H].
  - rewrite H. simpl.
    erewrite calls_since_ext by (simpl; reflexivity). repeat split.
  - case_reject; simpl; rewrite ?H; simpl;
      (erewrite calls_since_ext by (simpl; reflexivity)); repeat split.
Qed.

Lemma handleSnoozeReminder_lost_without_readable_store_witness :
  let w := mkWorld (Json [mkMedication "m1" "Aspirin" "100mg" "daily"
                                       ["09:00"] None 90 true "#E91E63"])
                   Absent [] [] true None in
  fst (handleSnoozeReminder unreadable "m1" "09:00" w) = Returned tt /\
  registered (calls_since w (snd (handleSnoozeReminder unreadable "m1" "09:00" w)))
    = [] /\
  immediate (calls_since w (snd (handleSnoozeReminder unreadable "m1" "09:00" w)))
    = [].
Proof.
  intros w. apply handleSnoozeReminder_lost_without_readable_store.
  left. reflexivity.
Defined.

(** ** Routing *)

Lemma try_catch_of_returning {A} (body : M A) handler w :
  (exists a, fst (body w) = Returned a) -> try_catch body handler w = body w.
Proof.
  intros [a H]. unfold try_catch. destruct (body w) as [[b|e] w1]; simpl in H.
  - reflexivity.
  - discriminate H.
Qed.

Lemma handleMedicationTaken_never_throws env i t :
  never_throws (handleMedicationTaken env i t).
Proof. apply try_catch_never_throws. intros e. apply log_never_throws. Qed.

Lemma handleSnoozeReminder_never_throws env i t :
  never_throws (handleSnoozeReminder env i t).
Proof. apply try_catch_never_throws. intros e. apply log_never_throws. Qed.

(** X15.  The listener routes by the action alone.  For a response that
    carries both fields, the action "taken" runs exactly
    [handleMedicationTaken] and the action "snooze" exactly
    [handleSnoozeReminder], on the two values of the payload (the
    listener's own [catch] never fires); any other action makes no
    platform call and leaves the stores as they were. *)
Theorem on_response_routes env response w medicationId reminderTime :
  data_medicationId (payload_of response) = Some medicationId ->
  data_reminderTime (payload_of response) = Some reminderTime ->
  medicationId <> ""%string -> reminderTime <> ""%string ->
  (actionIdentifier response = "taken"%string ->
   on_response env response w
   = handleMedicationTaken env medicationId reminderTime w) /\
  (actionIdentifier response = "snooze"%string ->
   on_response env response w
   = handleSnoozeReminder env medicationId reminderTime w) /\
  (actionIdentifier response <> "taken"%string ->
   actionIdentifier response <> "snooze"%string ->
   fst (on_response env response w) = Returned tt /\
   calls (snd (on_response env response w)) = calls w /\
   same_stores w (snd (on_response env response w))).
Proof.
  intros Hm Ht Hmn Htn. unfold on_response. rewrite Hm, Ht.
  apply String.eqb_neq in Hmn, Htn. unfold truthy. rewrite Hmn, Htn. simpl.
  split; [|split].
  - intros Ha. rewrite Ha. simpl. apply try_catch_of_returning.
    apply handleMedicationTaken_never_throws.
  - intros Ha. rewrite Ha. simpl. apply try_catch_of_returning.
    apply handleSnoozeReminder_never_throws.
  - intros H1 H2. apply String.eqb_neq in H1, H2. rewrite H1, H2.
    repeat split.
Qed.

Lemma on_response_routes_witness :
  let response :=
    mkResponse "snooze"
      (Some (mkData (Some "m1"%string) (Some "09:00"%string)
                    (Some "medicine_reminder"%string))) in
  (actionIdentifier response = "taken"%string ->
   on_response (steady "h") response empty_world
   = handleMedicationTaken (steady "h") "m1" "09:00" empty_world) /\
  (actionIdentifier response = "snooze"%string ->
   on_response (steady "h") response empty_world
   = handleSnoozeReminder (steady "h") "m1" "09:00" empty_world) /\
  (actionIdentifier response <> "taken"%string ->
   actionIdentifier response <> "snooze"%string ->
   fst (on_response (steady "h") response empty_world) = Returned tt /\
   calls (snd (on_response (steady "h") response empty_world))
     = calls empty_world /\
   same_stores empty_world (snd (on_response (steady "h") response empty_world))).
Proof.
  intros response.
  apply (on_response_routes (steady "h") response empty_world "m1" "09:00");
    reflexivity || discriminate.
Defined.

Lemma handleSnoozeReminder_never_writes_witness :
  let w := mkWorld (Json [mkMedication "m1" "Aspirin" "100mg" "daily"
                                       ["09:00"] None 90 true "#E91E63"])
                   Absent [] [] true None in
  registered (calls_since w (snd (handleSnoozeReminder (steady "h") "m1" "09:00" w)))
    = [TimeIntervalTrigger 900 false] /\
  exists name,
    rejects (steady "h") (S (length (calls w)))
            (ScheduleNotification (snooze_request "m1" "09:00" name)) = false.
Proof.
  intros w.
  refine (proj2 (proj2 (proj2 (proj2
            (handleSnoozeReminder_never_writes (steady "h") "m1" "09:00" w))))
          _).
  vm_compute. discriminate.
Defined.

(** ** Initialisation *)

(** Splits on every answer of the platform and every test of the
    environment that the goal still depends on. *)
Ltac case_platform env :=
  repeat match goal with
         | |- context [rejects ?e ?n ?c] =>
             destruct (rejects e n c) eqn:?; simpl
         | |- context [(?a =? ?b)%string] =>
             destruct (a =? b)%string eqn:?; simpl
         | |- context [window_Notification env] =>
             destruct (window_Notification env) eqn:?; simpl
         | |- context [isDevice env] =>
             destruct (isDevice env) eqn:?; simpl
         end.

(** What a run of [initialize] leaves, from a service not yet
    initialised. *)
Lemma initialize_cases env w :
  isInitialized w = false ->
  let w' := snd (initialize env w) in
  let cs := calls_since w w' in
  match fst (initialize env w) with
  | Returned _ =>
      isInitialized w' = true /\
      count_calls is_listener_registration cs = 1%nat
  | Thrown e =>
      isInitialized w' = false /\
      (count_calls is_listener_registration cs = 0%nat \/
       e = Rejected AddNotificationResponseReceivedListener)
  end /\
  (isDevice env = false ->
   expoPushToken w' = expoPushToken w /\
   count_calls is_token_request cs = 0%nat).
Proof.
  intros Hi. cbv zeta. unfold initialize. rewrite Hi.
  unfold requestPermissions, registerForPushNotificationsAsync,
    setupNotificationResponseListener, set_expoPushToken, set_isInitialized.
  unfold_monad. simpl.
  case_platform env;
    (erewrite calls_since_ext
       by (simpl; rewrite <- ?app_assoc; reflexivity));
    simpl; repeat split; auto; try discriminate.
Qed.

Lemma initialize_when_initialized env w :
  isInitialized w = true -> initialize env w = (Returned tt, w).
Proof. intros H. unfold initialize. rewrite H. reflexivity. Qed.

(** X16.  Initialisation happens once.  After a call of [initialize] that
    returned, the service is initialised and a further call does nothing
    at all: no platform call, no change.  A call that returned from a
    service not yet initialised registered the response listener exactly
    once. *)
Theorem initialize_once env w :
  fst (initialize env w) = Returned tt ->
  let w1 := snd (initialize env w) in
  isInitialized w1 = true /\
  initialize env w1 = (Returned tt, w1) /\
  (isInitialized w = false ->
   count_calls is_listener_registration (calls_since w w1) = 1%nat).
Proof.
  intros Hret w1. subst w1.
  assert (Hinit : isInitialized (snd (initialize env w)) = true /\
                  (isInitialized w = false ->
                   count_calls is_listener_registration
                     (calls_since w (snd (initialize env w))) = 1%nat)).
  { destruct (isInitialized w) eqn:Hi.
    - rewrite (initialize_when_initialized env w Hi). simpl.
      split; [exact Hi|discriminate].
    - destruct (initialize_cases env w Hi) as [H _]. rewrite Hret in H.
      destruct H as [H1 H2]. split; [exact H1|]. intros _. exact H2. }
  destruct Hinit as [H1 H2]. split; [exact H1|]. split; [|exact H2].
  now apply initialize_when_initialized.
Qed.

Lemma initialize_once_witness :
  let w1 := snd (initialize (steady "granted") empty_world) in
  isInitialized w1 = true /\
  initialize (steady "granted") w1 = (Returned tt, w1) /\
  (isInitialized empty_world = false ->
   count_calls is_listener_registration (calls_since empty_world w1) = 1%nat).
Proof.
  apply initialize_once. reflexivity.
Defined.

(** X17.  A failed initialisation can be tried again.  When [initialize]
    throws, the service is left not initialised, so that the next call
    runs again, and no listener was registered by the failed run: either
    the registration was never asked for, or it is the call that was
    rejected. *)
Theorem initialize_failure_leaves_uninitialised env w e :
  fst (initialize env w) = Thrown e ->
  isInitialized (snd (initialize env w)) = false /\
  (count_calls is_listener_registration
     (calls_since w (snd (initialize env w))) = 0%nat \/
   e = Rejected AddNotificationResponseReceivedListener).
Proof.
  intros Hthrown. destruct (isInitialized w) eqn:Hi.
  - rewrite (initialize_when_initialized env w Hi) in Hthrown.
    discriminate Hthrown.
  - destruct (initialize_cases env w Hi) as [H _].
    rewrite Hthrown in H. exact H.
Qed.

Lemma initialize_failure_leaves_uninitialised_witness :
  isInitialized (snd (initialize failing empty_world)) = false /\
  (count_calls is_listener_registration
     (calls_since empty_world (snd (initialize failing empty_world))) = 0%nat \/
   Rejected SetNotificationHandler
   = Rejected AddNotificationResponseReceivedListener).
Proof.
  apply initialize_failure_leaves_uninitialised. reflexivity.
Defined.



(** * The reminder setup screen *)

(** ** The days of a reminder *)

Lemma includes_In l day : includes l day = true <-> In day l.
Proof.
  unfold includes. rewrite existsb_exists. split.
  - intros [x [Hin Hx]]. apply Z.eqb_eq in Hx. now subst.
  - intros H. exists day. split; [exact H|apply Z.eqb_refl].
Qed.

Lemma sort_insert_perm x l : Permutation (sort_insert x l) (x :: l).
Proof.
  induction l as [|y l IH]; simpl; [reflexivity|].
  destruct (String.ltb (js_toString y) (js_toString x)); [|reflexivity].
  rewrite IH. apply perm_swap.
Qed.

Lemma js_sort_perm l : Permutation (js_sort l) l.
Proof.
  induction l as [|x l IH]; simpl; [reflexivity|].
  rewrite sort_insert_perm. now constructor.
Qed.

Lemma all_digits_ordered :
  forallb (fun a =>
             forallb (fun b =>
                        Bool.eqb (String.ltb (js_toString (Z.of_nat b))
                                             (js_toString (Z.of_nat a)))
                                 (Z.of_nat b <? Z.of_nat a))
                     (seq 0 10))
          (seq 0 10) = true.
Proof. vm_compute. reflexivity. Qed.

(** On single digits the comparison of the texts is the comparison of the
    numbers. *)
Lemma single_digit_order a b :
  0 <= a <= 9 -> 0 <= b <= 9 ->
  String.ltb (js_toString b) (js_toString a) = (b <? a).
Proof.
  intros Ha Hb. pose proof all_digits_ordered as H.
  rewrite forallb_forall in H.
  specialize (H (Z.to_nat a)). rewrite in_seq in H.
  assert (H' := H ltac:(lia)). clear H. rewrite forallb_forall in H'.
  specialize (H' (Z.to_nat b)). rewrite in_seq in H'.
  assert (P := H' ltac:(lia)). clear H'.
  rewrite !Z2Nat.id in P by lia. now apply Bool.eqb_prop in P.
Qed.

Lemma sort_insert_sorted x l :
  0 <= x <= 9 -> Forall (fun d => 0 <= d <= 9) l ->
  Sorted Z.le l -> Sorted Z.le (sort_insert x l).
Proof.
  intros Hx Hl Hs. induction Hs as [|y l Hs IH Hhd]; simpl.
  - repeat constructor.
  - inversion Hl as [|? ? Hy Hl']; subst.
    rewrite (single_digit_order x y Hx Hy).
    destruct (Z.ltb_spec y x) as [Hlt|Hge].
    + constructor; [now apply IH|].
      destruct l as [|z l]; simpl.
      * constructor. lia.
      * inversion Hl' as [|? ? Hz _]; subst.
        rewrite (single_digit_order x z Hx Hz).
        destruct (Z.ltb_spec z x); constructor; [|lia].
        now inversion Hhd.
    + constructor; [now constructor|]. constructor. lia.
Qed.

Lemma js_sort_sorted l :
  Forall (fun d => 0 <= d <= 9) l -> Sorted Z.le (js_sort l).
Proof.
  induction 1 as [|x l Hx Hl IH]; simpl; [constructor|].
  apply sort_insert_sorted; auto.
  eapply Permutation_Forall; [|exact Hl].
  symmetry. apply js_sort_perm.
Qed.

Example js_sort_compares_texts : js_sort [10; 9; 1] = [1; 10; 9].
Proof. reflexivity. Qed.

Lemma toggled_days_spec ds day :
  (forall x,
      In x (NotificationSetup.toggled_days ds day) <->
      (x <> day /\ In x ds) \/ (x = day /\ ~ In day ds)) /\
  (NoDup ds -> NoDup (NotificationSetup.toggled_days ds day)).
Proof.
  unfold NotificationSetup.toggled_days.
  destruct (includes ds day) eqn:Hi.
  - apply includes_In in Hi. split.
    + intros x. rewrite filter_In. split.
      * intros [Hin Hx]. left. split; [|exact Hin].
        apply negb_true_iff, Z.eqb_neq in Hx. exact Hx.
      * intros [[Hx Hin]|[_ Hn]]; [|contradiction].
        split; [exact Hin|]. now apply negb_true_iff, Z.eqb_neq.
    + apply NoDup_filter.
  - assert (Hn : ~ In day ds).
    { intros H. apply includes_In in H. congruence. }
    split.
    + intros x. split.
      * intros Hin. apply (Permutation_in _ (js_sort_perm _)) in Hin.
        apply in_app_or in Hin. destruct Hin as [Hin|[Hx|[]]].
        -- left. split; [|exact Hin]. intros ->. contradiction.
        -- right. now subst.
      * intros H.
        apply (Permutation_in _ (Permutation_sym (js_sort_perm _))).
        apply in_or_app. destruct H as [[_ Hin]|[Hx _]]; [now left|].
        right. left. now subst.
    + intros Hnd.
      apply (Permutation_NoDup (Permutation_sym (js_sort_perm _))).
      apply NoDup_app; [exact Hnd|repeat constructor; intros []|].
      intros a Ha [Hb|[]]. subst. contradiction.
Qed.

(** X19.  Toggling a day flips that day and no other: a day is among the
    toggled days exactly when it is another day that was among the days,
    or the toggled day itself and it was not among them.  Distinct days
    stay distinct. *)
Theorem toggled_days_flips_one_day ds day :
  (forall x,
      In x (NotificationSetup.toggled_days ds day) <->
      (x <> day /\ In x ds) \/ (x = day /\ ~ In day ds)) /\
  (NoDup ds -> NoDup (NotificationSetup.toggled_days ds day)).
Proof. apply toggled_days_spec. Qed.

Lemma toggled_days_flips_one_day_witness :
  NoDup (NotificationSetup.toggled_days [1; 3; 5] 3).
Proof.
  refine (proj2 (toggled_days_flips_one_day [1; 3; 5] 3) _).
  repeat constructor; simpl; intuition lia.
Defined.

(** X20.  A day that is put in lands in its place: for days that are all
    single digits (as the weekday indices 0..6 are), the days after
    adding a new one are in increasing order.  The array is sorted with
    the default comparison, which compares the texts of the numbers; on
    single digits that is the order of the numbers. *)
Theorem toggled_days_added_in_order ds day :
  Forall (fun d => 0 <= d <= 9) ds -> 0 <= day <= 9 -> ~ In day ds ->
  Sorted Z.le (NotificationSetup.toggled_days ds day) /\
  Permutation (NotificationSetup.toggled_days ds day) (day :: ds).
Proof.
  intros Hds Hday Hn. unfold NotificationSetup.toggled_days.
  destruct (includes ds day) eqn:Hi.
  - apply includes_In in Hi. contradiction.
  - split.
    + apply js_sort_sorted. apply Forall_app. split; [exact Hds|].
      repeat constructor; lia.
    + rewrite js_sort_perm. symmetry. apply Permutation_cons_append.
Qed.

Lemma toggled_days_added_in_order_witness :
  Sorted Z.le (NotificationSetup.toggled_days [1; 3; 5] 4) /\
  Permutation (NotificationSetup.toggled_days [1; 3; 5] 4) [4; 1; 3; 5].
Proof.
  apply toggled_days_added_in_order.
  - repeat constructor; lia.
  - lia.
  - simpl. intuition lia.
Defined.

(** X21.  Toggling the same day twice gives back the same days, up to
    their order, when the days are distinct. *)
Theorem toggled_days_twice ds day :
  NoDup ds ->
  Permutation
    (NotificationSetup.toggled_days (NotificationSetup.toggled_days ds day) day)
    ds.
Proof.
  intros Hnd.
  destruct (toggled_days_spec ds day) as [H1 N1].
  destruct (toggled_days_spec
              (NotificationSetup.toggled_days ds day) day) as [H2 N2].
  apply NoDup_Permutation; [auto|exact Hnd|].
  intros x. rewrite H2, !H1.
  destruct (Z.eq_dec x day) as [->|Hx];
    destruct (in_dec Z.eq_dec day ds); tauto.
Qed.

Lemma toggled_days_twice_witness :
  Permutation
    (NotificationSetup.toggled_days (NotificationSetup.toggled_days [5; 1; 3] 1) 1)
    [5; 1; 3].
Proof.
  apply toggled_days_twice.
  repeat constructor; simpl; intuition lia.
Defined.

(** ** The handlers of the screen *)

Lemma scheduleReminder_never_throws env r : never_throws (scheduleReminder env r).
Proof.
  apply try_catch_never_throws. intros e. apply log_then_ret_never_throws.
Qed.

Lemma deleteReminder_never_throws env i : never_throws (deleteReminder env i).
Proof. apply try_catch_never_throws. intros e. apply log_never_throws. Qed.

Lemma getReminders_never_throws env : never_throws (getReminders env).
Proof.
  apply try_catch_never_throws. intros e. apply log_then_ret_never_throws.
Qed.

(** The run of [updateReminder], from the run of [scheduleReminder]. *)
Lemma updateReminder_run env reminders r w :
  exists answer,
    fst (scheduleReminder env r w) = Returned answer /\
    NotificationSetup.updateReminder env reminders r w
    = (Returned
         [setReminders
            (map (fun x =>
                    if (id x =? id r)%string
                    then with_notificationId r
                           (NotificationSetup.or_undefined answer)
                    else x)
                 reminders)],
       snd (scheduleReminder env r w)).
Proof.
  destruct (scheduleReminder_never_throws env r w) as [answer Ha].
  exists answer. split; [exact Ha|].
  unfold NotificationSetup.updateReminder, try_catch, bind, ret.
  destruct (scheduleReminder env r w) as [o w']. simpl in Ha. subst o.
  reflexivity.
Qed.

(** X22.  The error alert of [updateReminder] is never shown, and the
    screen gets the handle that was answered.  Whatever the platform
    answers, [scheduleReminder] returns some answer and the handler
    returns exactly one state update and no alert: the entry of the
    edited reminder is replaced by the edited reminder, carrying the
    answered handle when the answer is a non-empty text and no handle
    when it is [null], [undefined] or the empty text (so also after a
    rejected registration); the other entries stay; and the world is the
    one [scheduleReminder] leaves. *)
Theorem updateReminder_never_alerts env reminders r w :
  exists answer,
    fst (scheduleReminder env r w) = Returned answer /\
    NotificationSetup.updateReminder env reminders r w
    = (Returned
         [setReminders
            (map (fun x =>
                    if (id x =? id r)%string
                    then with_notificationId r
                           match answer with
                           | JValue h => if (h =? "")%string then None
                                         else Some h
                           | JNull | JUndefined => None
                           end
                    else x)
                 reminders)],
       snd (scheduleReminder env r w)).
Proof.
  destruct (updateReminder_run env reminders r w) as [answer [Ha Hrun]].
  exists answer. split; [exact Ha|]. rewrite Hrun.
  destruct answer as [| |h]; try reflexivity.
  unfold NotificationSetup.or_undefined, truthy.
  destruct (h =? "")%string; reflexivity.
Qed.

(** X23.  Switching a reminder off takes nothing back.  For an enabled
    reminder, [toggleReminderEnabled] makes no platform call and changes
    nothing in the world, even when the reminder carries a handle: its
    trigger is not cancelled and its persisted entry stays enabled.  On
    the screen the entry becomes disabled and loses its handle. *)
Theorem switching_off_cancels_nothing env reminders r w :
  enabled r = true ->
  NotificationSetup.toggleReminderEnabled env reminders r w
  = (Returned
       [setReminders
          (map (fun x =>
                  if (id x =? id r)%string
                  then mkReminder (id r) (medicationId r) (medicationName r)
                                  (dosage r) (scheduledTime r) (days r)
                                  false None
                  else x)
               reminders)],
     w).
Proof.
  intros He. unfold NotificationSetup.toggleReminderEnabled.
  destruct (updateReminder_run env reminders (NotificationSetup.toggled r) w)
    as [answer [Ha Hrun]].
  rewrite Hrun.
  rewrite scheduleReminder_disabled in *
    by (unfold NotificationSetup.toggled; simpl; now rewrite He).
  simpl in Ha. injection Ha as <-. simpl.
  unfold with_notificationId, NotificationSetup.toggled. simpl.
  rewrite He. reflexivity.
Qed.

Lemma switching_off_cancels_nothing_witness :
  let r := with_notificationId sample_reminder (Some "h1"%string) in
  let w := mkWorld Absent (Json [r]) [] [] true None in
  NotificationSetup.toggleReminderEnabled (steady "h") [r] r w
  = (Returned
       [setReminders
          (map (fun x =>
                  if (id x =? id r)%string
                  then mkReminder (id r) (medicationId r) (medicationName r)
                                  (dosage r) (scheduledTime r) (days r)
                                  false None
                  else x)
               [r])],
     w).
Proof.
  intros r w. apply switching_off_cancels_nothing. reflexivity.
Defined.

(** X24.  The entry leaves the screen whatever happened to the store.
    Whatever the platform answers, the handler [deleteReminder] of the
    screen returns one state update, the reminders without the entries of
    the id, and no alert; the world is the one the service's
    [deleteReminder] leaves, so after a rejected write the store still
    holds the entry. *)
Theorem screen_deleteReminder_never_alerts env reminders reminderId w :
  NotificationSetup.deleteReminder env reminders reminderId w
  = (Returned
       [setReminders
          (filter (fun r => negb (id r =? reminderId)%string) reminders)],
     snd (deleteReminder env reminderId w)).
Proof.
  destruct (deleteReminder_never_throws env reminderId w) as [a Ha].
  unfold NotificationSetup.deleteReminder, try_catch, bind, ret.
  destruct (deleteReminder env reminderId w) as [o w']. simpl in Ha.
  subst o. reflexivity.
Qed.

Example screen_and_store_part_after_a_rejected_write :
  let w := mkWorld Absent (Json [sample_reminder]) [] [] true None in
  fst (NotificationSetup.deleteReminder read_only [sample_reminder] "r1" w)
    = Returned [setReminders []] /\
  medication_reminders
    (snd (NotificationSetup.deleteReminder read_only [sample_reminder] "r1" w))
    = Json [sample_reminder].
Proof. split; reflexivity. Qed.

(** X25.  The test button always ends in exactly one alert and never
    throws: "Test Sent" when the scheduler accepted the test
    notification, "Test Failed" when it rejected it (the error the
    service throws again is caught here). *)
Theorem screen_testNotification_alerts_once env w :
  fst (NotificationSetup.testNotification env w)
  = Returned
      [if rejects env (length (calls w))
            (ScheduleNotification
               (mkRequest
                  (mkContent "Test Notification"
                     "This is a test notification to verify the service is working correctly."
                     (mkData None None (Some "test"%string)) true None None)
                  None))
       then Alert_alert "Test Failed"
              "Unable to send test notification. Please check your settings."
       else Alert_alert "Test Sent"
              "Check your notifications to see if it worked!"].
Proof.
  unfold NotificationSetup.testNotification, testNotification,
    showLocalNotification.
  unfold_monad. simpl. case_reject; reflexivity.
Qed.

(** X26.  The screen lists the reminders of its medication only, and
    always stops loading.  Whatever the platform answers,
    [loadReminders] returns a state update with reminders that are all of
    the screen's medication, followed by the end of loading; on a store
    that answers these are exactly the persisted reminders of that
    medication, in order. *)
Theorem loadReminders_lists_own_reminders env medicationId' w :
  exists shown,
    fst (NotificationSetup.loadReminders env medicationId' w)
    = Returned [setReminders shown; setLoading false] /\
    Forall (fun r => medicationId r = medicationId') shown /\
    (storage_ok env ->
     shown = filter (fun r => (medicationId r =? medicationId')%string)
                    (stored_reminders w)).
Proof.
  exists (filter (fun r => (medicationId r =? medicationId')%string)
                 (listed env w)).
  destruct (getReminders_run env w) as [Ho _].
  split; [|split].
  - unfold NotificationSetup.loadReminders, try_catch, bind, ret.
    destruct (getReminders env w) as [o w1]. simpl in Ho. subst o.
    reflexivity.
  - apply Forall_forall. intros r Hr. apply filter_In in Hr.
    destruct Hr as [_ Hr]. now apply String.eqb_eq in Hr.
  - intros Hs. now rewrite (listed_stored env w Hs).
Qed.

(** X27.  Taking out the last day leaves an enabled reminder with no day
    and no trigger.  On a platform that rejects nothing, [toggleDay] on
    the only day of an enabled reminder that carries a handle cancels
    that handle, registers nothing, and saves the reminder, still
    enabled, with no day and no handle; the screen shows the same. *)
Theorem removing_the_last_day env reminders r day h w :
  healthy env -> enabled r = true -> days r = [day] ->
  notificationId r = Some h -> h <> ""%string ->
  let cleared :=
    mkReminder (id r) (medicationId r) (medicationName r) (dosage r)
               (scheduledTime r) [] true None in
  let w' := snd (NotificationSetup.toggleDay env reminders r day w) in
  fst (NotificationSetup.toggleDay env reminders r day w)
  = Returned [setReminders
                (map (fun x => if (id x =? id r)%string then cleared else x)
                     reminders)] /\
  cancels (calls_since w w') = [h] /\
  registered (calls_since w w') = [] /\
  medication_reminders w'
  = Json (filter (fun x => negb (id x =? id r)%string) (stored_reminders w)
            ++ [cleared]).
Proof.
  intros Hh He Hd Hn Hne. cbv zeta.
  unfold NotificationSetup.toggleDay. rewrite Hd.
  assert (Ht : NotificationSetup.toggled_days [day] day = []).
  { unfold NotificationSetup.toggled_days, includes. simpl.
    rewrite Z.eqb_refl. reflexivity. }
  rewrite Ht. set (r0 := NotificationSetup.on_days r []).
  destruct (updateReminder_run env reminders r0 w) as [answer [Ha Hrun]].
  rewrite Hrun. cbn [fst snd].
  destruct (scheduleReminder_ok env r0 w (healthy_storage_ok env Hh)
              (healthy_scheduler_ok env Hh) He)
    as [ids [Hl [_ [Ho [Hm Hc]]]]].
  simpl in Hl. destruct ids; [|discriminate Hl]. simpl in Ho, Hm, Hc.
  rewrite Ho in Ha. injection Ha as <-.
  rewrite Hc, Hm. unfold prior_cancel. simpl. rewrite Hn.
  assert (Hr0 : with_notificationId r0 None
                = mkReminder (id r) (medicationId r) (medicationName r)
                             (dosage r) (scheduledTime r) [] true None).
  { unfold r0, with_notificationId, NotificationSetup.on_days. simpl.
    now rewrite He. }
  rewrite Hr0.
  unfold truthy. apply String.eqb_neq in Hne. rewrite Hne. simpl.
  repeat split.
Qed.

Lemma removing_the_last_day_witness :
  let r := mkReminder "r1" "m1" "Aspirin" "100mg" "09:00" [3] true
                      (Some "h1"%string) in
  let w := mkWorld Absent (Json [r]) [] [] true None in
  let cleared :=
    mkReminder (id r) (medicationId r) (medicationName r) (dosage r)
               (scheduledTime r) [] true None in
  let w' := snd (NotificationSetup.toggleDay (steady "h") [r] r 3 w) in
  fst (NotificationSetup.toggleDay (steady "h") [r] r 3 w)
  = Returned [setReminders
                (map (fun x => if (id x =? id r)%string then cleared else x)
                     [r])] /\
  cancels (calls_since w w') = ["h1"%string] /\
  registered (calls_since w w') = [] /\
  medication_reminders w'
  = Json (filter (fun x => negb (id x =? id r)%string) (stored_reminders w)
            ++ [cleared]).
Proof.
  intros r w.
  apply (removing_the_last_day (steady "h") [r] r 3 "h1" w).
  - intros n c; reflexivity.
  - reflexivity.
  - reflexivity.
  - reflexivity.
  - discriminate.
Defined.

(** ** Listing *)

(** X28.  Listing changes nothing and cannot tell a failure from an empty
    collection.  Whatever the platform answers, [getReminders] makes the
    one read, leaves both collections as they were, and returns either
    the persisted collection or, when the read was rejected, nothing is
    stored or the text does not parse, the empty list. *)
Theorem getReminders_reads_only env w :
  exists l,
    fst (getReminders env w) = Returned l /\
    (medication_reminders w = Json l \/
     l = [] /\
     (rejects env (length (calls w)) (GetItem "medication_reminders") = true \/
      medication_reminders w = Absent \/ medication_reminders w = Corrupt)) /\
    calls_since w (snd (getReminders env w)) = [GetItem "medication_reminders"] /\
    same_stores w (snd (getReminders env w)).
Proof.
  destruct (getReminders_run env w) as [Ho [Hc Hs]].
  exists (listed env w). split; [exact Ho|]. split.
  - unfold listed. destruct (rejects env _ _); [right; auto|].
    destruct (medication_reminders w); auto.
  - split; [exact (calls_since_ext _ _ _ Hc)|exact Hs].
Qed.

Lemma loadReminders_lists_own_reminders_witness :
  exists shown,
    fst (NotificationSetup.loadReminders (steady "h") "m1"
           (mkWorld Absent
              (Json [sample_reminder;
                     mkReminder "r2" "m2" "Zinc" "5mg" "20:00" [0] true None])
              [] [] true None))
    = Returned [setReminders shown; setLoading false] /\
    shown = [sample_reminder].
Proof.
  destruct (loadReminders_lists_own_reminders (steady "h") "m1"
              (mkWorld Absent
                 (Json [sample_reminder;
                        mkReminder "r2" "m2" "Zinc" "5mg" "20:00" [0] true None])
                 [] [] true None)) as [shown [H1 [_ H3]]].
  exists shown. split; [exact H1|].
  apply H3. intros n c; destruct c; simpl; reflexivity || exact I.
Defined.
